(** * AidGen relay: the Cloudflare worker and the Pages functions

    A shallow embedding of [src/worker/index.js] (the worker's [fetch]
    dispatcher) and of the Pages function file ([handlePost], [onRequest],
    [onRequestPost]), over a model of the part of ECMAScript and of the
    Fetch API that these handlers use.

    Strings are sequences of UTF-16 code units, numbers are binary64
    values, values read from JSON are a tagged union, and a handler is a
    computation that may throw and that records every call of the global
    [fetch]. *)

From Stdlib Require Import List ZArith NArith Bool Ascii String Lia.
From Stdlib Require Import Permutation DecimalPos.
From Stdlib Require Import Floats.SpecFloat.
Import ListNotations.

Set Implicit Arguments.
Set Warnings "-register-all".

(** ** ECMAScript values *)

Module JS.

(** A String value: a finite sequence of UTF-16 code units. *)
Definition jsstring := list N.

(** A source literal made of ASCII characters only. *)
Definition lit (s : string) : jsstring :=
  map N_of_ascii (list_ascii_of_string s).

(** The line feed written [\n] in the source. *)
Definition LF : jsstring := [10%N].

Fixpoint jsstring_eqb (a b : jsstring) : bool :=
  match a, b with
  | [], [] => true
  | x :: a', y :: b' => N.eqb x y && jsstring_eqb a' b'
  | _, _ => false
  end.

(** WhiteSpace and LineTerminator code points (all of them lie in the
    basic plane, so each is one code unit): what [String.prototype.trim]
    strips. *)
Definition isWhiteSpace (c : N) : bool :=
  (N.eqb c 9 || N.eqb c 10 || N.eqb c 11 || N.eqb c 12 || N.eqb c 13
   || N.eqb c 32 || N.eqb c 160 || N.eqb c 5760
   || (N.leb 8192 c && N.leb c 8202)
   || N.eqb c 8232 || N.eqb c 8233 || N.eqb c 8239 || N.eqb c 8287
   || N.eqb c 12288 || N.eqb c 65279)%bool.

Fixpoint trimStart (s : jsstring) : jsstring :=
  match s with
  | [] => []
  | c :: s' => if isWhiteSpace c then trimStart s' else s
  end.

Definition trimEnd (s : jsstring) : jsstring := rev (trimStart (rev s)).

(** [String.prototype.trim]. *)
Definition trim (s : jsstring) : jsstring := trimEnd (trimStart s).

(** [Array.prototype.join] on an array of strings. *)
Fixpoint join (elts : list jsstring) (sep : jsstring) : jsstring :=
  match elts with
  | [] => []
  | [x] => x
  | x :: rest => x ++ sep ++ join rest sep
  end.

(** *** Numbers

    A Number is a binary64 value; [S754_finite s m e] stands for
    [(-1)^s * m * 2^e]. *)
Definition Number := spec_float.

Definition Number_isFinite (x : Number) : bool :=
  match x with
  | S754_zero _ | S754_finite _ _ _ => true
  | S754_infinity _ | S754_nan => false
  end.

(** The decimal digits of a natural number, most significant first. *)
Fixpoint uint_units (d : Decimal.uint) : jsstring :=
  match d with
  | Decimal.Nil => []
  | Decimal.D0 r => 48%N :: uint_units r
  | Decimal.D1 r => 49%N :: uint_units r
  | Decimal.D2 r => 50%N :: uint_units r
  | Decimal.D3 r => 51%N :: uint_units r
  | Decimal.D4 r => 52%N :: uint_units r
  | Decimal.D5 r => 53%N :: uint_units r
  | Decimal.D6 r => 54%N :: uint_units r
  | Decimal.D7 r => 55%N :: uint_units r
  | Decimal.D8 r => 56%N :: uint_units r
  | Decimal.D9 r => 57%N :: uint_units r
  end.

Definition decimal_digits (p : positive) : jsstring :=
  uint_units (Pos.to_uint p).

Definition zeros (n : Z) : jsstring := repeat 48%N (Z.to_nat n).

(** The exponent of the unit in the last place of the binary64 value
    [m * 2^e]. *)
Definition ulp_exponent (m : positive) (e : Z) : Z :=
  Z.max (e + Z.log2 (Zpos m) + 1 - 53) (-1074).

(** The reals that round to the value [m * 2^e], as integers in units
    of [2^g]: the lower bound, the value, the upper bound, whether the
    bounds themselves round to it (ties go to the even significand),
    and [g]. *)
Definition rounding_interval (m : positive) (e : Z)
  : Z * Z * Z * bool * Z :=
  let E := ulp_exponent m e in
  let g := Z.min e (E - 2) in
  let V := (Zpos m * 2 ^ (e - g))%Z in
  let U := (2 ^ (E - g))%Z in
  let below :=
    if ((2 ^ Z.log2 V =? V) && (-1074 <? E))%Z%bool
    then (U / 4)%Z else (U / 2)%Z in
  (V - below, V, V + U / 2, Z.even (V / U), g)%Z.

(** The integers [s] with [s * 10^q] inside the rounding interval:
    the least one, the greatest one and the one nearest to the value. *)
Definition candidates (iv : Z * Z * Z * bool * Z) (q : Z) : Z * Z * Z :=
  let '(lo, V, hi, closed, g) := iv in
  let A := (10 ^ Z.max q 0 * 2 ^ Z.max (- g) 0)%Z in
  let B := (2 ^ Z.max g 0 * 10 ^ Z.max (- q) 0)%Z in
  let s_lo :=
    let c := (- ((- (lo * B)) / A))%Z in
    if (negb closed && (c * A =? lo * B))%Z%bool then (c + 1)%Z else c in
  let s_hi :=
    let f := (hi * B / A)%Z in
    if (negb closed && (f * A =? hi * B))%Z%bool then (f - 1)%Z else f in
  let near :=
    let f := (V * B / A)%Z in
    let r := (2 * (V * B - f * A))%Z in
    if (r <? A)%Z then f
    else if (A <? r)%Z then (f + 1)%Z
    else if Z.even f then f else (f + 1)%Z in
  (s_lo, s_hi, Z.max s_lo (Z.min s_hi near)).

(** The greatest decimal exponent [q] at which the interval holds a
    multiple of [10^q], searched downwards from [q]: that multiple has
    the fewest digits. *)
Fixpoint shortest (fuel : nat) (iv : Z * Z * Z * bool * Z) (q : Z)
  : Z * Z :=
  let '(s_lo, s_hi, s) := candidates iv q in
  match fuel with
  | O => (s, q)
  | S fuel' =>
      if ((s_lo <=? s_hi) && (1 <=? s_hi))%Z%bool then (Z.max 1 s, q)
      else shortest fuel' iv (q - 1)
  end.

(** Steps 5 to 10 of Number::toString for a positive finite value:
    [s] holds the [k] digits, and the value is [s * 10^(n - k)]. *)
Definition format_decimal (s : positive) (q : Z) : jsstring :=
  let ds := decimal_digits s in
  let k := Z.of_nat (List.length ds) in
  let n := (q + k)%Z in
  if ((-5 <=? n) && (n <=? 21))%Z%bool then
    if (k <=? n)%Z then ds ++ zeros (n - k)
    else if (0 <? n)%Z then
      firstn (Z.to_nat n) ds ++ lit "." ++ skipn (Z.to_nat n) ds
    else lit "0." ++ zeros (- n) ++ ds
  else
    let e := (n - 1)%Z in
    let sign := if (e <? 0)%Z then lit "-" else lit "+" in
    let mantissa :=
      match ds with
      | [] => []
      | [d] => [d]
      | d :: rest => d :: lit "." ++ rest
      end in
    mantissa ++ lit "e" ++ sign ++ decimal_digits (Z.to_pos (Z.abs e)).

Definition toString_positive (m : positive) (e : Z) : jsstring :=
  let iv := rounding_interval m e in
  let '(_, _, hi, _, g) := iv in
  let bits := (Z.log2 hi + g + 1)%Z in
  let q_top :=
    ((if (0 <=? bits)%Z then bits * 30103 / 100000
      else bits * 30102 / 100000) + 2)%Z in
  let q_bot := Z.min g 0 in
  let '(s, q) := shortest (Z.to_nat (q_top - q_bot)) iv q_top in
  format_decimal (Z.to_pos s) q.

(** Number::toString with radix 10. *)
Definition Number_toString (x : Number) : jsstring :=
  match x with
  | S754_nan => lit "NaN"
  | S754_zero _ => lit "0"
  | S754_infinity false => lit "Infinity"
  | S754_infinity true => lit "-Infinity"
  | S754_finite false m e => toString_positive m e
  | S754_finite true m e => lit "-" ++ toString_positive m e
  end.


(** *** Values

    What [JSON.parse] returns: null, a Boolean, a Number, a String, an
    Array, or an ordinary object whose own properties (in enumeration
    order, keys distinct) are data properties holding such values.
    [undefined] is the [None] of [option jsvalue]. *)
Inductive jsvalue : Type :=
| VNull
| VBool (b : bool)
| VNumber (n : Number)
| VString (s : jsstring)
| VArray (elts : list jsvalue)
| VObject (props : list (jsstring * jsvalue)).

(** Induction on a value, with the elements of an Array at hand. *)
Fixpoint jsvalue_elements_ind (P : jsvalue -> Prop)
    (Hnull : P VNull) (Hbool : forall b, P (VBool b))
    (Hnum : forall n, P (VNumber n)) (Hstr : forall s, P (VString s))
    (Harr : forall elts, Forall P elts -> P (VArray elts))
    (Hobj : forall props, P (VObject props))
    (v : jsvalue) : P v :=
  match v with
  | VNull => Hnull
  | VBool b => Hbool b
  | VNumber n => Hnum n
  | VString s => Hstr s
  | VArray elts =>
      Harr elts
        ((fix all (l : list jsvalue) : Forall P l :=
            match l with
            | [] => Forall_nil P
            | x :: l' =>
                Forall_cons x
                  (jsvalue_elements_ind Hnull Hbool Hnum Hstr Harr Hobj x)
                  (all l')
            end) elts)
  | VObject props => Hobj props
  end.

(** *** Completions *)

Record Error := { name : jsstring; message : jsstring }.

Inductive completion (A : Type) : Type :=
| Normal (a : A)
| Throw (e : Error).
Arguments Normal {A} a.
Arguments Throw {A} e.

Definition TypeError (msg : jsstring) : Error :=
  {| name := lit "TypeError"; message := msg |}.

Class Monad (m : Type -> Type) : Type := {
  ret : forall A, A -> m A;
  bind : forall A B, m A -> (A -> m B) -> m B
}.
Arguments ret {m _ A} _.
Arguments bind {m _ A B} _ _.

Notation "x <- c ;; k" := (bind c (fun x => k))
  (at level 61, c at next level, right associativity).

#[export] Instance completion_Monad : Monad completion := {
  ret := fun A a => Normal a;
  bind := fun A B c k =>
    match c with
    | Normal a => k a
    | Throw e => Throw e
    end
}.

(** [for (const x of xs) { ... }] over a loop body that updates the
    state [s] or throws. *)
Fixpoint for_of (A S : Type) (xs : list A)
    (body : A -> S -> completion S) (s : S) : completion S :=
  match xs with
  | [] => Normal s
  | x :: xs' =>
      match body x s with
      | Normal s' => for_of xs' body s'
      | Throw e => Throw e
      end
  end.

(** *** Property access *)

Fixpoint own_property (props : list (jsstring * jsvalue)) (key : jsstring)
  : option jsvalue :=
  match props with
  | [] => None
  | (k, v) :: props' =>
      if jsstring_eqb k key then Some v else own_property props' key
  end.

Definition isDigit (c : N) : bool := (N.leb 48 c && N.leb c 57)%bool.

(** The array index that a property key denotes, if it is the canonical
    decimal form of one. *)
Definition array_index (key : jsstring) : option N :=
  match key with
  | [] => None
  | [c] => if isDigit c then Some (c - 48)%N else None
  | c :: _ =>
      if (isDigit c && negb (N.eqb c 48) && forallb isDigit key)%bool
      then Some (fold_left (fun acc d => (10 * acc + (d - 48))%N) key 0%N)
      else None
  end.

(** [v[key]] for a key that no built-in prototype defines and that is
    not [length]: the handlers read [name] ... [brewProfile],
    [choices], [0], [message] and [content]. *)
Definition Get (v : jsvalue) (key : jsstring) : completion (option jsvalue) :=
  match v with
  | VNull =>
      Throw (TypeError (lit "Cannot read properties of null (reading '"
                          ++ key ++ lit "')"))
  | VBool _ | VNumber _ => Normal None
  | VString s =>
      Normal match array_index key with
             | Some i => option_map (fun c => VString [c])
                                    (nth_error s (N.to_nat i))
             | None => None
             end
  | VArray elts =>
      Normal match array_index key with
             | Some i => nth_error elts (N.to_nat i)
             | None => None
             end
  | VObject props => Normal (own_property props key)
  end.

(** *** Conversions *)

Definition Number_isFalsy (x : Number) : bool :=
  match x with
  | S754_zero _ | S754_nan => true
  | _ => false
  end.

Definition ToBoolean (v : option jsvalue) : bool :=
  match v with
  | None | Some VNull => false
  | Some (VBool b) => b
  | Some (VNumber n) => negb (Number_isFalsy n)
  | Some (VString s) => match s with [] => false | _ => true end
  | Some (VArray _) | Some (VObject _) => true
  end.

Definition hasOwn (props : list (jsstring * jsvalue)) (key : jsstring)
  : bool :=
  match own_property props key with Some _ => true | None => false end.

(** ToString.  An Array goes through [Array.prototype.join] with the
    separator [","], where a null element contributes the empty string.
    An object goes through OrdinaryToPrimitive: without an own
    [toString] the inherited one answers; an own [toString] is a JSON
    value, hence not callable, and [valueOf] (inherited, or own and not
    callable) yields no primitive. *)
Fixpoint ToString (v : jsvalue) : completion jsstring :=
  match v with
  | VNull => Normal (lit "null")
  | VBool true => Normal (lit "true")
  | VBool false => Normal (lit "false")
  | VNumber n => Normal (Number_toString n)
  | VString s => Normal s
  | VArray elts =>
      let elements :=
        fix elements (l : list jsvalue) : completion (list jsstring) :=
          match l with
          | [] => Normal []
          | x :: l' =>
              s <- match x with VNull => Normal [] | _ => ToString x end ;;
              ss <- elements l' ;;
              Normal (s :: ss)
          end in
      ss <- elements elts ;;
      Normal (join ss (lit ","))
  | VObject props =>
      if hasOwn props (lit "toString")
      then Throw (TypeError (lit "Cannot convert object to primitive value"))
      else Normal (lit "[object Object]")
  end.


(** [v.toString()]: the method is looked up on the value, so an object
    with an own property [toString] (never callable in a JSON value)
    makes the call throw; an Array and an ordinary object inherit
    theirs. *)
Definition call_toString (v : option jsvalue) : completion jsstring :=
  match v with
  | None =>
      Throw (TypeError
        (lit "Cannot read properties of undefined (reading 'toString')"))
  | Some VNull =>
      Throw (TypeError
        (lit "Cannot read properties of null (reading 'toString')"))
  | Some (VObject props) =>
      if hasOwn props (lit "toString")
      then Throw (TypeError (lit "body[key].toString is not a function"))
      else Normal (lit "[object Object]")
  | Some v' => ToString v'
  end.

(** A substitution [${v}] of a template literal. *)
Definition TemplateToString (v : option jsvalue) : completion jsstring :=
  match v with
  | None => Normal (lit "undefined")
  | Some v' => ToString v'
  end.

(** [base?.[key]]. *)
Definition OptionalGet (base : option jsvalue) (key : jsstring)
  : completion (option jsvalue) :=
  match base with
  | None | Some VNull => Normal None
  | Some b => Get b key
  end.

(** [a || b]. *)
Definition LogicalOr (a b : option jsvalue) : option jsvalue :=
  if ToBoolean a then a else b.

(** [Object.keys] of an ordinary object. *)
Definition Object_keys (v : jsvalue) : list jsstring :=
  match v with
  | VObject props => map fst props
  | _ => []
  end.

(** *** JSON.stringify *)

Definition hex_digit (d : N) : N :=
  if N.ltb d 10 then (48 + d)%N else (87 + d)%N.

(** UnicodeEscape: [\uXXXX] with lower-case hexadecimal digits. *)
Definition UnicodeEscape (c : N) : jsstring :=
  lit "\u" ++ [hex_digit (c / 4096 mod 16); hex_digit (c / 256 mod 16);
               hex_digit (c / 16 mod 16); hex_digit (c mod 16)]%N.

Definition isLeadingSurrogate (c : N) : bool :=
  (N.leb 55296 c && N.leb c 56319)%bool.
Definition isTrailingSurrogate (c : N) : bool :=
  (N.leb 56320 c && N.leb c 57343)%bool.

(** The escape of one code unit that is not half of a surrogate pair. *)
Definition quote_unit (c : N) : jsstring :=
  if N.eqb c 8 then lit "\b"
  else if N.eqb c 9 then lit "\t"
  else if N.eqb c 10 then lit "\n"
  else if N.eqb c 12 then lit "\f"
  else if N.eqb c 13 then lit "\r"
  else if N.eqb c 34 then [92; 34]%N
  else if N.eqb c 92 then [92; 92]%N
  else if (N.ltb c 32 || isLeadingSurrogate c || isTrailingSurrogate c)%bool
       then UnicodeEscape c
  else [c].

Fixpoint quote_units (s : jsstring) : jsstring :=
  match s with
  | [] => []
  | c :: rest =>
      match rest with
      | d :: rest' =>
          if (isLeadingSurrogate c && isTrailingSurrogate d)%bool
          then c :: d :: quote_units rest'
          else quote_unit c ++ quote_units rest
      | [] => quote_unit c
      end
  end.

(** QuoteJSONString. *)
Definition QuoteJSONString (s : jsstring) : jsstring :=
  [34%N] ++ quote_units s ++ [34%N].

(** [JSON.stringify(v)] without replacer or indentation.  No value of
    [jsvalue] has a callable [toJSON], and a Number that is not finite
    is written [null]. *)
Fixpoint JSON_stringify (v : jsvalue) : jsstring :=
  match v with
  | VNull => lit "null"
  | VBool true => lit "true"
  | VBool false => lit "false"
  | VNumber n => if Number_isFinite n then Number_toString n else lit "null"
  | VString s => QuoteJSONString s
  | VArray elts => lit "[" ++ join (map JSON_stringify elts) (lit ",") ++ lit "]"
  | VObject props =>
      lit "{"
      ++ join (map (fun '(k, x) =>
                      QuoteJSONString k ++ lit ":" ++ JSON_stringify x)
                   props) (lit ",")
      ++ lit "}"
  end.

(** An object literal [{ key: v }] whose member may be [undefined]; such
    a member is left out by [JSON.stringify]. *)
Definition member (key : jsstring) (v : option jsvalue)
  : list (jsstring * jsvalue) :=
  match v with
  | Some x => [(key, x)]
  | None => []
  end.

End JS.

(** ** The Fetch API and the host *)

Module Host.
Import JS.

(** The inbound request: its method and the outcome of [request.json()]. *)
Record Request := {
  req_method : jsstring;
  req_json : completion jsvalue
}.

(** The environment bindings; [OPENAI_API_KEY] is [undefined] when the
    secret is not configured. *)
Record Env := { OPENAI_API_KEY : option jsstring }.

(** The argument of a Pages function. *)
Record Context := { request : Request; env : Env }.

(** [new Response(body, { status, headers })]. *)
Record Response := {
  status : Z;
  headers : list (jsstring * jsstring);
  body : jsstring
}.

Definition new_Response (b : jsstring) (st : Z)
    (hs : list (jsstring * jsstring)) : Response :=
  {| status := st; headers := hs; body := b |}.

(** One call [fetch(url, { method, headers, body })]. *)
Record FetchCall := {
  call_url : jsstring;
  call_method : jsstring;
  call_headers : list (jsstring * jsstring);
  call_body : jsstring
}.

(** What the upstream answers: [ok], and the outcomes of [text()] and of
    [json()]. *)
Record FetchResponse := {
  res_ok : bool;
  res_text : completion jsstring;
  res_json : completion jsvalue
}.

(** The upstream: the outcome of the awaited global [fetch]. *)
Definition Upstream := FetchCall -> completion FetchResponse.

(** A handler: it reads the upstream, appends to the log of the
    outbound calls made so far, and returns or throws. *)
Definition M (A : Type) : Type :=
  Upstream -> list FetchCall -> completion A * list FetchCall.

#[export] Instance M_Monad : Monad M := {
  ret := fun A a _ log => (Normal a, log);
  bind := fun A B m k up log =>
    match m up log with
    | (Normal a, log') => k a up log'
    | (Throw e, log') => (Throw e, log')
    end
}.

(** A computation that calls nothing. *)
Definition lift (A : Type) (c : completion A) : M A :=
  fun _ log => (c, log).

(** The global [fetch], awaited. *)
Definition global_fetch (url method : jsstring)
    (hs : list (jsstring * jsstring)) (b : jsstring) : M FetchResponse :=
  fun up log =>
    let call := {| call_url := url; call_method := method;
                   call_headers := hs; call_body := b |} in
    (up call, log ++ [call]).

(** [try { m } catch (err) { handler }]. *)
Definition try_catch (A : Type) (m : M A) (handler : Error -> M A) : M A :=
  fun up log =>
    match m up log with
    | (Throw err, log') => handler err up log'
    | r => r
    end.

(** A handler run from an empty log. *)
Definition run (A : Type) (m : M A) (up : Upstream)
  : completion A * list FetchCall := m up [].

(** The body of the response that a run ends with. *)
Definition body_of (r : completion Response * list FetchCall)
  : option jsstring :=
  match fst r with
  | Normal response => Some (body response)
  | Throw _ => None
  end.

(** [`Bearer ${env.OPENAI_API_KEY}`]. *)
Definition Bearer (e : Env) : jsstring :=
  lit "Bearer " ++ match OPENAI_API_KEY e with
                   | Some k => k
                   | None => lit "undefined"
                   end.

End Host.

(** ** src/worker/index.js *)

Module Worker.
Import JS Host.

Definition mapping : jsvalue :=
  VObject [ (lit "name", VString (lit "Name"));
            (lit "roast", VString (lit "Roast profile"));
            (lit "origin", VString (lit "Origin"));
            (lit "process", VString (lit "Processing method"));
            (lit "varietal", VString (lit "Varietal"));
            (lit "masl", VString (lit "MASL"));
            (lit "roastDate", VString (lit "Roast date"));
            (lit "brewProfile", VString (lit "Brew profile")) ].

(** The loop over [Object.keys(mapping)]: the array [lines] after it. *)
Definition lines (body : jsvalue) : completion (list jsstring) :=
  for_of (Object_keys mapping)
    (fun key lines =>
       present <- Get body key ;;
       keep <- (if ToBoolean present then
                  again <- Get body key ;;
                  text <- call_toString again ;;
                  ret (negb (jsstring_eqb (trim text) []))
                else ret false) ;;
       if keep : bool then
         label <- Get mapping key ;;
         label' <- TemplateToString label ;;
         value <- Get body key ;;
         value' <- TemplateToString value ;;
         ret (lines ++ [label' ++ lit ": " ++ value'])
       else ret lines)
    [].

Definition userMessage (body : jsvalue) : completion jsstring :=
  ls <- lines body ;;
  ret (join ls LF).

Definition systemPrompt : jsstring :=
  lit "You are AidGen, a recipe generator for the Fellow Aiden coffee machine." ++ LF ++
  lit "Your task is to generate precise coffee brewing recipes based on user inputs." ++ LF ++ LF ++
  lit "The user will provide some or all of the following fields: Name, Roast profile, Origin, Processing method, Varietal, MASL, Roast date, Brew profile." ++ LF ++
  lit "If any fields are blank, ignore them." ++ LF ++ LF ++
  lit "Output as an HTML block containing ONLY tables. Each table must be dark mode styled and readable when injected directly into the page." ++ LF ++ LF ++
  lit "Tables Required:" ++ LF ++
  lit "1. Aiden Recipe Table (Temperature, Coffee-to-Water Ratio, Bloom Ratio, Bloom Time, Bloom Temperature)." ++ LF ++
  lit "2. Single Serve Recipe Table (Pulse #, Pulse Temp, Time Until Next Pulse)." ++ LF ++
  lit "3. Batch Recipe Table (Pulse #, Pulse Temp, Time Until Next Pulse)." ++ LF ++ LF ++
  lit "Rules:" ++ LF ++
  lit "- All values must fall within specified ranges." ++ LF ++
  lit "- Be precise & realistic for the Fellow Aiden brewer." ++ LF ++
  lit "- Do not output text outside of tables.".

Definition payload (userMessage : jsstring) : jsvalue :=
  VObject [ (lit "model", VString (lit "gpt-3.5-turbo"));
            (lit "messages",
             VArray [ VObject [ (lit "role", VString (lit "system"));
                                (lit "content", VString systemPrompt) ];
                      VObject [ (lit "role", VString (lit "user"));
                                (lit "content", VString userMessage) ] ]);
            (lit "temperature", VNumber (S754_finite false 1 (-1)));
            (lit "max_tokens", VNumber (S754_finite false 800 0)) ].

(** [result.choices?.[0]?.message?.content || ''] *)
Definition content (result : jsvalue) : completion (option jsvalue) :=
  choices <- Get result (lit "choices") ;;
  first <- OptionalGet choices (lit "0") ;;
  message <- OptionalGet first (lit "message") ;;
  c <- OptionalGet message (lit "content") ;;
  ret (LogicalOr c (Some (VString []))).

(** The statements of the [try] block. *)
Definition try_block (request : Request) (env : Env) : M Response :=
  body <- lift (req_json request) ;;
  userMessage <- lift (userMessage body) ;;
  openaiRes <- global_fetch
    (lit "https://api.openai.com/v1/chat/completions")
    (lit "POST")
    [ (lit "Content-Type", lit "application/json");
      (lit "Authorization", Bearer env) ]
    (JSON_stringify (payload userMessage)) ;;
  if negb (res_ok openaiRes) then
    errorText <- lift (res_text openaiRes) ;;
    ret (new_Response
           (JSON_stringify
              (VObject [ (lit "error", VString (lit "OpenAI API error"));
                         (lit "details", VString errorText) ]))
           500 [ (lit "Content-Type", lit "application/json") ])
  else
    result <- lift (res_json openaiRes) ;;
    content <- lift (content result) ;;
    ret (new_Response
           (JSON_stringify (VObject (member (lit "html") content)))
           200 [ (lit "Content-Type", lit "application/json") ]).

(** The statements of the [catch (err)] block. *)
Definition catch_block (err : Error) : M Response :=
  ret (new_Response
         (JSON_stringify
            (VObject [ (lit "error", VString (lit "Invalid request"));
                       (lit "message", VString (message err)) ]))
         400 [ (lit "Content-Type", lit "application/json") ]).

(** [fetch(request, env)], the worker's request dispatcher. *)
Definition fetch (request : Request) (env : Env) : M Response :=
  if negb (jsstring_eqb (req_method request) (lit "POST")) then
    ret (new_Response
           (JSON_stringify
              (VObject [ (lit "error", VString (lit "Method Not Allowed")) ]))
           405 [ (lit "Content-Type", lit "application/json") ])
  else
    try_catch (try_block request env) catch_block.

End Worker.

(** ** The Pages function file *)

Module Pages.
Import JS Host.

(** The locals of [handlePost]. *)
Module HandlePost.

Definition mapping : jsvalue :=
  VObject [ (lit "name", VString (lit "Name"));
            (lit "roast", VString (lit "Roast profile"));
            (lit "origin", VString (lit "Origin"));
            (lit "process", VString (lit "Processing method"));
            (lit "varietal", VString (lit "Varietal"));
            (lit "masl", VString (lit "MASL"));
            (lit "roastDate", VString (lit "Roast date"));
            (lit "brewProfile", VString (lit "Brew profile")) ].

(** The loop over [Object.keys(mapping)]: the array [lines] after it. *)
Definition lines (body : jsvalue) : completion (list jsstring) :=
  for_of (Object_keys mapping)
    (fun key lines =>
       present <- Get body key ;;
       keep <- (if ToBoolean present then
                  again <- Get body key ;;
                  text <- call_toString again ;;
                  ret (negb (jsstring_eqb (trim text) []))
                else ret false) ;;
       if keep : bool then
         label <- Get mapping key ;;
         label' <- TemplateToString label ;;
         value <- Get body key ;;
         value' <- TemplateToString value ;;
         ret (lines ++ [label' ++ lit ": " ++ value'])
       else ret lines)
    [].

Definition userMessage (body : jsvalue) : completion jsstring :=
  ls <- lines body ;;
  ret (join ls LF).

Definition systemPrompt : jsstring :=
  lit "You are AidGen, a recipe generator for the Fellow Aiden coffee machine." ++ LF ++
  lit "Your task is to generate precise coffee brewing recipes based on user inputs." ++ LF ++ LF ++
  lit "The user will provide some or all of the following fields: Name, Roast profile, Origin, Processing method, Varietal, MASL, Roast date, Brew profile." ++ LF ++
  lit "If any fields are blank, ignore them." ++ LF ++ LF ++
  lit "Output as an HTML block containing ONLY tables. Each table must be dark mode styled and readable when injected directly into the page." ++ LF ++ LF ++
  lit "Tables Required:" ++ LF ++
  lit "1. Aiden Recipe Table (Temperature, Coffee-to-Water Ratio, Bloom Ratio, Bloom Time, Bloom Temperature)." ++ LF ++
  lit "2. Single Serve Recipe Table (Pulse #, Pulse Temp, Time Until Next Pulse)." ++ LF ++
  lit "3. Batch Recipe Table (Pulse #, Pulse Temp, Time Until Next Pulse)." ++ LF ++ LF ++
  lit "Rules:" ++ LF ++
  lit "- All values must fall within specified ranges." ++ LF ++
  lit "- Be precise & realistic for the Fellow Aiden brewer." ++ LF ++
  lit "- Do not output text outside of tables.".

Definition payload (userMessage : jsstring) : jsvalue :=
  VObject [ (lit "model", VString (lit "gpt-3.5-turbo"));
            (lit "messages",
             VArray [ VObject [ (lit "role", VString (lit "system"));
                                (lit "content", VString systemPrompt) ];
                      VObject [ (lit "role", VString (lit "user"));
                                (lit "content", VString userMessage) ] ]);
            (lit "temperature", VNumber (S754_finite false 1 (-1)));
            (lit "max_tokens", VNumber (S754_finite false 800 0)) ].

(** [result.choices?.[0]?.message?.content || ''] *)
Definition content (result : jsvalue) : completion (option jsvalue) :=
  choices <- Get result (lit "choices") ;;
  first <- OptionalGet choices (lit "0") ;;
  message <- OptionalGet first (lit "message") ;;
  c <- OptionalGet message (lit "content") ;;
  ret (LogicalOr c (Some (VString []))).

(** The statements of the [try] block. *)
Definition try_block (request : Request) (env : Env) : M Response :=
  body <- lift (req_json request) ;;
  userMessage <- lift (userMessage body) ;;
  openaiRes <- global_fetch
    (lit "https://api.openai.com/v1/chat/completions")
    (lit "POST")
    [ (lit "Content-Type", lit "application/json");
      (lit "Authorization", Bearer env) ]
    (JSON_stringify (payload userMessage)) ;;
  if negb (res_ok openaiRes) then
    errorText <- lift (res_text openaiRes) ;;
    ret (new_Response
           (JSON_stringify
              (VObject [ (lit "error", VString (lit "OpenAI API error"));
                         (lit "details", VString errorText) ]))
           500 [ (lit "Content-Type", lit "application/json") ])
  else
    result <- lift (res_json openaiRes) ;;
    content <- lift (content result) ;;
    ret (new_Response
           (JSON_stringify (VObject (member (lit "html") content)))
           200 [ (lit "Content-Type", lit "application/json") ]).

(** The statements of the [catch (err)] block. *)
Definition catch_block (err : Error) : M Response :=
  ret (new_Response
         (JSON_stringify
            (VObject [ (lit "error", VString (lit "Invalid request"));
                       (lit "message", VString (message err)) ]))
         400 [ (lit "Content-Type", lit "application/json") ]).

End HandlePost.

Definition handlePost (context : Context) : M Response :=
  let request := request context in
  let env := env context in
  try_catch (HandlePost.try_block request env) HandlePost.catch_block.

(** The generic handler: it delegates to [handlePost] or answers 405. *)
Definition onRequest (context : Context) : M Response :=
  if jsstring_eqb (req_method (request context)) (lit "POST") then
    handlePost context
  else
    ret (new_Response
           (JSON_stringify
              (VObject [ (lit "error", VString (lit "Method Not Allowed")) ]))
           405 [ (lit "Content-Type", lit "application/json") ]).

(** The locals of [onRequestPost]. *)
Module OnRequestPost.

Definition mapping : jsvalue :=
  VObject [ (lit "name", VString (lit "Name"));
            (lit "roast", VString (lit "Roast profile"));
            (lit "origin", VString (lit "Origin"));
            (lit "process", VString (lit "Processing method"));
            (lit "varietal", VString (lit "Varietal"));
            (lit "masl", VString (lit "MASL"));
            (lit "roastDate", VString (lit "Roast date"));
            (lit "brewProfile", VString (lit "Brew profile")) ].

(** The loop over [Object.keys(mapping)]: the array [lines] after it. *)
Definition lines (body : jsvalue) : completion (list jsstring) :=
  for_of (Object_keys mapping)
    (fun key lines =>
       present <- Get body key ;;
       keep <- (if ToBoolean present then
                  again <- Get body key ;;
                  text <- call_toString again ;;
                  ret (negb (jsstring_eqb (trim text) []))
                else ret false) ;;
       if keep : bool then
         label <- Get mapping key ;;
         label' <- TemplateToString label ;;
         value <- Get body key ;;
         value' <- TemplateToString value ;;
         ret (lines ++ [label' ++ lit ": " ++ value'])
       else ret lines)
    [].

Definition userMessage (body : jsvalue) : completion jsstring :=
  ls <- lines body ;;
  ret (join ls LF).

Definition systemPrompt : jsstring :=
  lit "You are AidGen, a recipe generator for the Fellow Aiden coffee machine." ++ LF ++
  lit "Your task is to generate precise coffee brewing recipes based on user inputs." ++ LF ++ LF ++
  lit "The user will provide some or all of the following fields: Name, Roast profile, Origin, Processing method, Varietal, MASL, Roast date, Brew profile." ++ LF ++
  lit "If any fields are blank, ignore them." ++ LF ++ LF ++
  lit "Output as an HTML block containing ONLY tables. Each table must be dark mode styled and readable when injected directly into the page." ++ LF ++ LF ++
  lit "Tables Required:" ++ LF ++
  lit "1. Aiden Recipe Table (Temperature, Coffee-to-Water Ratio, Bloom Ratio, Bloom Time, Bloom Temperature)." ++ LF ++
  lit "2. Single Serve Recipe Table (Pulse #, Pulse Temp, Time Until Next Pulse)." ++ LF ++
  lit "3. Batch Recipe Table (Pulse #, Pulse Temp, Time Until Next Pulse)." ++ LF ++ LF ++
  lit "Rules:" ++ LF ++
  lit "- All values must fall within specified ranges." ++ LF ++
  lit "- Be precise & realistic for the Fellow Aiden brewer." ++ LF ++
  lit "- Do not output text outside of tables.".

Definition payload (userMessage : jsstring) : jsvalue :=
  VObject [ (lit "model", VString (lit "gpt-3.5-turbo"));
            (lit "messages",
             VArray [ VObject [ (lit "role", VString (lit "system"));
                                (lit "content", VString systemPrompt) ];
                      VObject [ (lit "role", VString (lit "user"));
                                (lit "content", VString userMessage) ] ]);
            (lit "temperature", VNumber (S754_finite false 1 (-1)));
            (lit "max_tokens", VNumber (S754_finite false 800 0)) ].

(** [result.choices?.[0]?.message?.content || ''] *)
Definition content (result : jsvalue) : completion (option jsvalue) :=
  choices <- Get result (lit "choices") ;;
  first <- OptionalGet choices (lit "0") ;;
  message <- OptionalGet first (lit "message") ;;
  c <- OptionalGet message (lit "content") ;;
  ret (LogicalOr c (Some (VString []))).

(** The statements of the [try] block. *)
Definition try_block (request : Request) (env : Env) : M Response :=
  body <- lift (req_json request) ;;
  userMessage <- lift (userMessage body) ;;
  openaiRes <- global_fetch
    (lit "https://api.openai.com/v1/chat/completions")
    (lit "POST")
    [ (lit "Content-Type", lit "application/json");
      (lit "Authorization", Bearer env) ]
    (JSON_stringify (payload userMessage)) ;;
  if negb (res_ok openaiRes) then
    errorText <- lift (res_text openaiRes) ;;
    ret (new_Response
           (JSON_stringify
              (VObject [ (lit "error", VString (lit "OpenAI API error"));
                         (lit "details", VString errorText) ]))
           500 [ (lit "Content-Type", lit "application/json") ])
  else
    result <- lift (res_json openaiRes) ;;
    content <- lift (content result) ;;
    ret (new_Response
           (JSON_stringify (VObject (member (lit "html") content)))
           200 [ (lit "Content-Type", lit "application/json") ]).

(** The statements of the [catch (err)] block. *)
Definition catch_block (err : Error) : M Response :=
  ret (new_Response
         (JSON_stringify
            (VObject [ (lit "error", VString (lit "Invalid request"));
                       (lit "message", VString (message err)) ]))
         400 [ (lit "Content-Type", lit "application/json") ]).

End OnRequestPost.

Definition onRequestPost (context : Context) : M Response :=
  let request := request context in
  let env := env context in
  try_catch (OnRequestPost.try_block request env) OnRequestPost.catch_block.

End Pages.

(** ** The relay as the specification words it *)

Module Spec.
Import JS Host.

(** The recognized keys in their fixed order, each with its label. *)
Definition table : list (jsstring * jsstring) :=
  [ (lit "name", lit "Name");
    (lit "roast", lit "Roast profile");
    (lit "origin", lit "Origin");
    (lit "process", lit "Processing method");
    (lit "varietal", lit "Varietal");
    (lit "masl", lit "MASL");
    (lit "roastDate", lit "Roast date");
    (lit "brewProfile", lit "Brew profile") ].

Definition keys : list jsstring := map fst table.

Fixpoint lookup (t : list (jsstring * jsstring)) (key : jsstring)
  : jsstring :=
  match t with
  | [] => []
  | (k, l) :: t' => if jsstring_eqb k key then l else lookup t' key
  end.

Definition label (key : jsstring) : jsstring := lookup table key.

(** The value a body holds under a key; [None] when it holds none. *)
Definition field (body : jsvalue) (key : jsstring) : option jsvalue :=
  match Get body key with
  | Normal v => v
  | Throw _ => None
  end.

(** The string form of a value, and whether the value has one. *)
Definition text (v : jsvalue) : jsstring :=
  match ToString v with
  | Normal s => s
  | Throw _ => []
  end.

Definition converts (v : jsvalue) : bool :=
  match ToString v with
  | Normal _ => true
  | Throw _ => false
  end.

(** Every value held under a recognized key has a string form. *)
Definition convertible (body : jsvalue) : Prop :=
  forall key v, In key keys -> field body key = Some v -> converts v = true.

(** The presence filter of the loop: the value is truthy and its string
    form is not empty once trimmed. *)
Definition passes (v : jsvalue) : bool :=
  ToBoolean (Some v) && negb (jsstring_eqb (trim (text v)) []).

(** Whether the value under a key is there and passes the filter. *)
Definition kept (body : jsvalue) (key : jsstring) : bool :=
  match field body key with
  | Some v => passes v
  | None => false
  end.

(** The line ["<Label>: <value>"]. *)
Definition line (key : jsstring) (v : jsvalue) : jsstring :=
  label key ++ lit ": " ++ text v.

(** What a key adds to the lines: its line if its value passes the
    filter, nothing otherwise. *)
Definition rendered (body : jsvalue) (key : jsstring) : list jsstring :=
  match field body key with
  | Some v => if passes v then [line key v] else []
  | None => []
  end.

(** The lines of the recognized keys, in the fixed order. *)
Definition rendered_lines (body : jsvalue) : list jsstring :=
  flat_map (rendered body) keys.

Definition user_message (body : jsvalue) : jsstring :=
  join (rendered_lines body) LF.

(** A value that is absent, null, or whitespace-only after trimming. *)
Definition blank (v : option jsvalue) : bool :=
  match v with
  | None | Some VNull => true
  | Some x => jsstring_eqb (trim (text x)) []
  end.

(** The Boolean [false], and a Number that is zero or NaN. *)
Definition false_or_zero (v : option jsvalue) : bool :=
  match v with
  | Some (VBool false) => true
  | Some (VNumber n) => Number_isFalsy n
  | _ => false
  end.

(** No line of [ls] carries the label of [key]. *)
Definition omitted (ls : list jsstring) (key : jsstring) : Prop :=
  forall value, ~ In (label key ++ lit ": " ++ value) ls.

(** A JSON text, written with ['] for the quotation mark. *)
Definition jsontext (s : string) : jsstring :=
  map (fun c => if N.eqb c 39 then 34%N else c) (lit s).

Definition json_headers : list (jsstring * jsstring) :=
  [ (lit "Content-Type", lit "application/json") ].

(** The four responses of section 6. *)
Definition method_not_allowed : Response :=
  {| status := 405; headers := json_headers;
     body := jsontext "{'error':'Method Not Allowed'}" |}.

Definition invalid_request (text : jsstring) : Response :=
  {| status := 400; headers := json_headers;
     body := jsontext "{'error':'Invalid request','message':"
             ++ QuoteJSONString text ++ jsontext "}" |}.

Definition upstream_error (details : jsstring) : Response :=
  {| status := 500; headers := json_headers;
     body := jsontext "{'error':'OpenAI API error','details':"
             ++ QuoteJSONString details ++ jsontext "}" |}.

Definition success (html : jsvalue) : Response :=
  {| status := 200; headers := json_headers;
     body := jsontext "{'html':" ++ JSON_stringify html ++ jsontext "}" |}.

(** The outbound request body of section 6, for a system and a user
    message. *)
Definition outbound_body (system user : jsstring) : jsvalue :=
  VObject [ (lit "model", VString (lit "gpt-3.5-turbo"));
            (lit "messages",
             VArray [ VObject [ (lit "role", VString (lit "system"));
                                (lit "content", VString system) ];
                      VObject [ (lit "role", VString (lit "user"));
                                (lit "content", VString user) ] ]);
            (lit "temperature", VNumber (S754_finite false 1 (-1)));
            (lit "max_tokens", VNumber (S754_finite false 800 0)) ].

(** The one outbound call. *)
Definition outbound (env : Env) (system user : jsstring) : FetchCall :=
  {| call_url := lit "https://api.openai.com/v1/chat/completions";
     call_method := lit "POST";
     call_headers := [ (lit "Content-Type", lit "application/json");
                       (lit "Authorization", Bearer env) ];
     call_body := JSON_stringify (outbound_body system user) |}.

(** One step of a path: the value under [key], [None] when there is
    nothing to read it from or nothing under it. *)
Definition step (v : option jsvalue) (key : jsstring) : option jsvalue :=
  match v with
  | None | Some VNull => None
  | Some x => field x key
  end.

(** The [choices[0].message.content] of the upstream result; [None]
    when a part of that path is missing. *)
Definition message_content (result : jsvalue) : option jsvalue :=
  step (step (step (step (Some result) (lit "choices")) (lit "0"))
             (lit "message")) (lit "content").

(** What the specification puts under [html]: the content, the empty string
    standing in for a missing one. *)
Definition html_when_missing (result : jsvalue) : jsvalue :=
  match message_content result with
  | Some c => c
  | None => VString []
  end.

(** What the handlers put under [html]: the content when it is there
    and truthy, the empty string otherwise. *)
Definition html (result : jsvalue) : jsvalue :=
  match message_content result with
  | Some c => if ToBoolean (Some c) then c else VString []
  | None => VString []
  end.

(** Every recognized field is absent, null, or whitespace-only, as
    the specification words it: by the value the body holds under the
    key, which is none for every key of the body [null]. *)
Definition every_field_blank (body : jsvalue) : Prop :=
  forall key, In key keys ->
    field body key = None
    \/ field body key = Some VNull
    \/ exists s, field body key = Some (VString s) /\ trim s = [].

(** Every read of a recognized key succeeds and gives nothing, null, or
    a whitespace-only string. *)
Definition all_blank (body : jsvalue) : Prop :=
  forall key, In key keys ->
    Get body key = Normal None
    \/ Get body key = Normal (Some VNull)
    \/ exists s, Get body key = Normal (Some (VString s)) /\ trim s = [].

(** The exceptions that the platform raises carry a text: those of
    [request.json()], of the global [fetch], and of [text()] and
    [json()] on what it answers. *)
Definition platform_errors_have_text (request : Request) (up : Upstream)
  : Prop :=
  (forall e, req_json request = Throw e -> message e <> [])
  /\ (forall call e, up call = Throw e -> message e <> [])
  /\ (forall call res e, up call = Normal res ->
        res_text res = Throw e \/ res_json res = Throw e ->
        message e <> []).

End Spec.

(** ** The entry points *)

Module Relay.
Import JS Host.

Inductive entry : Type :=
| WorkerFetch
| PagesOnRequest
| PagesOnRequestPost.

(** The handler behind an entry point. *)
Definition handler (p : entry) (request : Request) (env : Env)
  : M Response :=
  match p with
  | WorkerFetch => Worker.fetch request env
  | PagesOnRequest =>
      Pages.onRequest {| request := request; env := env |}
  | PagesOnRequestPost =>
      Pages.onRequestPost {| request := request; env := env |}
  end.

(** The [try] block that the handler runs for a POST request. *)
Definition attempt (p : entry) (request : Request) (env : Env)
  : M Response :=
  match p with
  | WorkerFetch => Worker.try_block request env
  | PagesOnRequest => Pages.HandlePost.try_block request env
  | PagesOnRequestPost => Pages.OnRequestPost.try_block request env
  end.

Definition userMessage (p : entry) : jsvalue -> completion jsstring :=
  match p with
  | WorkerFetch => Worker.userMessage
  | PagesOnRequest => Pages.HandlePost.userMessage
  | PagesOnRequestPost => Pages.OnRequestPost.userMessage
  end.

Definition lines (p : entry) : jsvalue -> completion (list jsstring) :=
  match p with
  | WorkerFetch => Worker.lines
  | PagesOnRequest => Pages.HandlePost.lines
  | PagesOnRequestPost => Pages.OnRequestPost.lines
  end.

Definition systemPrompt (p : entry) : jsstring :=
  match p with
  | WorkerFetch => Worker.systemPrompt
  | PagesOnRequest => Pages.HandlePost.systemPrompt
  | PagesOnRequestPost => Pages.OnRequestPost.systemPrompt
  end.

End Relay.

(** ** Sample requests and upstreams *)

Module Sample.
Import JS Host.

Definition env : Env := {| OPENAI_API_KEY := Some (lit "sk-sample") |}.

(** [{ "name": "El Salvador Bourbon", "roast": "Light" }] *)
Definition bourbon : jsvalue :=
  VObject [ (lit "name", VString (lit "El Salvador Bourbon"));
            (lit "roast", VString (lit "Light")) ].

(** The same members, in the other order. *)
Definition bourbon_swapped : jsvalue :=
  VObject [ (lit "roast", VString (lit "Light"));
            (lit "name", VString (lit "El Salvador Bourbon")) ].

(** [{ "name": "  " }] *)
Definition blank_name : jsvalue :=
  VObject [ (lit "name", VString (lit "  ")) ].

(** [{ "name": { "toString": null } }], a value with no string form. *)
Definition odd_name : jsvalue :=
  VObject [ (lit "name", VObject [ (lit "toString", VNull) ]) ].

(** [{ "masl": 0 }] *)
Definition sea_level : jsvalue :=
  VObject [ (lit "masl", VNumber (S754_zero false)) ].

Definition post (parsed : jsvalue) : Request :=
  {| req_method := lit "POST"; req_json := Normal parsed |}.

(** A GET request has no body, so that [request.json()] rejects. *)
Definition get : Request :=
  {| req_method := lit "GET";
     req_json := Throw {| name := lit "SyntaxError";
                          message := lit "Unexpected end of JSON input" |} |}.

(** A POST request whose body is not JSON. *)
Definition malformed : Request :=
  {| req_method := lit "POST";
     req_json := Throw {| name := lit "SyntaxError";
                          message := lit "Unexpected token 'h', ... is not valid JSON" |} |}.

(** An upstream that answers every call with the same response. *)
Definition answering (res : FetchResponse) : Upstream :=
  fun _ => Normal res.

(** A failure whose body is [rate limited]. *)
Definition rate_limited : FetchResponse :=
  {| res_ok := false;
     res_text := Normal (lit "rate limited");
     res_json := Throw {| name := lit "SyntaxError";
                          message := lit "Unexpected token 'r', ... is not valid JSON" |} |}.

(** A success whose body is the JSON value [result]. *)
Definition completed (result : jsvalue) : FetchResponse :=
  {| res_ok := true;
     res_text := Normal (JSON_stringify result);
     res_json := Normal result |}.

(** [{ "choices": [ { "message": { "content": "<table></table>" } } ] }] *)
Definition one_choice : jsvalue :=
  VObject [ (lit "choices",
             VArray [ VObject [ (lit "message",
               VObject [ (lit "content",
                          VString (lit "<table></table>")) ]) ] ]) ].

(** [{ "choices": [ { "message": { "content": false } } ] }] *)
Definition false_content : jsvalue :=
  VObject [ (lit "choices",
             VArray [ VObject [ (lit "message",
               VObject [ (lit "content", VBool false) ]) ] ]) ].

(** [{ "id": "cmpl-1" }], a body without [choices]. *)
Definition no_choices : jsvalue :=
  VObject [ (lit "id", VString (lit "cmpl-1")) ].

End Sample.

(** ** Further sample bodies and upstreams *)

Module Edge.
Import JS Host.

(** The sample body with a member that the mapping does not list. *)
Definition with_notes : list (jsstring * jsvalue) :=
  [ (lit "notes", VString (lit "washed, 72h"));
    (lit "name", VString (lit "El Salvador Bourbon"));
    (lit "roast", VString (lit "Light")) ].

Definition without_notes : list (jsstring * jsvalue) :=
  [ (lit "name", VString (lit "El Salvador Bourbon"));
    (lit "roast", VString (lit "Light")) ].

(** [{ "name": " Kenya " }] *)
Definition padded_name : jsvalue :=
  VObject [ (lit "name", VString (lit " Kenya ")) ].

(** [{ "masl": 1200 }] *)
Definition altitude : jsvalue :=
  VObject [ (lit "masl", VNumber (S754_finite false 1200 0)) ].

(** [{ "varietal": {}, "origin": [], "roast": true }] *)
Definition mixed : jsvalue :=
  VObject [ (lit "varietal", VObject []);
            (lit "origin", VArray []);
            (lit "roast", VBool true) ].

(** An upstream that cannot be reached: the global [fetch] rejects. *)
Definition unreachable : Upstream :=
  fun _ => Throw {| name := lit "TypeError";
                    message := lit "Network connection lost." |}.

(** An environment without the secret. *)
Definition no_key : Env := {| OPENAI_API_KEY := None |}.

(** No code unit of the string is a control character (below U+0020). *)
Definition printable (s : jsstring) : bool := forallb (N.leb 32) s.

(** Induction on a value, with the elements of an Array and the values
    of the members of an object at hand. *)
Fixpoint jsvalue_deep_ind (P : jsvalue -> Prop)
    (Hnull : P VNull) (Hbool : forall b, P (VBool b))
    (Hnum : forall n, P (VNumber n)) (Hstr : forall s, P (VString s))
    (Harr : forall elts, Forall P elts -> P (VArray elts))
    (Hobj : forall props,
        Forall (fun member => P (snd member)) props -> P (VObject props))
    (v : jsvalue) : P v :=
  match v with
  | VNull => Hnull
  | VBool b => Hbool b
  | VNumber n => Hnum n
  | VString s => Hstr s
  | VArray elts =>
      Harr elts
        ((fix all (l : list jsvalue) : Forall P l :=
            match l with
            | [] => Forall_nil P
            | x :: l' =>
                Forall_cons x
                  (jsvalue_deep_ind Hnull Hbool Hnum Hstr Harr Hobj x)
                  (all l')
            end) elts)
  | VObject props =>
      Hobj props
        ((fix all (l : list (jsstring * jsvalue))
            : Forall (fun member => P (snd member)) l :=
            match l with
            | [] => Forall_nil _
            | (k, x) :: l' =>
                Forall_cons (k, x)
                  (jsvalue_deep_ind Hnull Hbool Hnum Hstr Harr Hobj x)
                  (all l')
            end) props)
  end.

(** Whether an entry point looks at the method before anything else. *)
Definition checks_method (p : Relay.entry) : bool :=
  match p with
  | Relay.WorkerFetch | Relay.PagesOnRequest => true
  | Relay.PagesOnRequestPost => false
  end.

End Edge.

(** * Properties *)

(** ** Numbers in decimal *)

Section Numbers.
Import JS.

Example Number_toString_half :
  Number_toString (S754_finite false 1 (-1)) = lit "0.5".
Proof. vm_compute. reflexivity. Qed.

Example Number_toString_800 :
  Number_toString (S754_finite false 800 0) = lit "800".
Proof. vm_compute. reflexivity. Qed.

Example Number_toString_tenth :
  Number_toString (S754_finite false 3602879701896397 (-55)) = lit "0.1".
Proof. vm_compute. reflexivity. Qed.

Example Number_toString_sum :
  Number_toString (S754_finite false 5404319552844596 (-54))
  = lit "0.30000000000000004".
Proof. vm_compute. reflexivity. Qed.

Example Number_toString_large :
  Number_toString (S754_finite false 476837158203125 21) = lit "1e+21".
Proof. vm_compute. reflexivity. Qed.

Example Number_toString_small :
  Number_toString (S754_finite true 7555786372591432 (-76)) = lit "-1e-7".
Proof. vm_compute. reflexivity. Qed.

Example Number_toString_least :
  Number_toString (S754_finite false 1 (-1074)) = lit "5e-324".
Proof. vm_compute. reflexivity. Qed.

End Numbers.

(** One step of a computation that may throw. *)
Ltac monad := cbn [JS.bind JS.ret JS.completion_Monad].

(** ** Strings, property lists and loops *)

Section PropertyLists.
Import JS.

Lemma jsstring_eqb_refl (a : jsstring) : jsstring_eqb a a = true.
Proof.
  induction a as [|x a IH]; simpl; [reflexivity|].
  now rewrite N.eqb_refl, IH.
Qed.

Lemma jsstring_eqb_eq (a b : jsstring) : jsstring_eqb a b = true <-> a = b.
Proof.
  split; [|intros ->; apply jsstring_eqb_refl].
  revert b; induction a as [|x a IH]; intros [|y b]; simpl;
    try discriminate; [reflexivity|].
  intros H; apply andb_true_iff in H as [Hx Hab].
  apply N.eqb_eq in Hx; subst y.
  now rewrite (IH b Hab).
Qed.

Lemma jsstring_eqb_neq (a b : jsstring) : jsstring_eqb a b = false <-> a <> b.
Proof.
  rewrite <- jsstring_eqb_eq.
  destruct (jsstring_eqb a b); split; intros; congruence.
Qed.

Lemma own_property_In props key v :
  NoDup (map fst props) ->
  own_property props key = Some v <-> In (key, v) props.
Proof.
  induction props as [|[k x] props IH]; simpl; intros Hnd.
  - split; [discriminate | tauto].
  - inversion Hnd as [|? ? Hk Hnd']; subst.
    destruct (jsstring_eqb k key) eqn:E.
    + apply jsstring_eqb_eq in E; subst k.
      split.
      * intros [= ->]; now left.
      * intros [[= ->]|Hin]; [reflexivity|].
        exfalso; apply Hk.
        change key with (fst (key, v)); now apply in_map.
    + rewrite (IH Hnd').
      apply jsstring_eqb_neq in E.
      split; [now right|].
      intros [[= -> _]|Hin]; [congruence | exact Hin].
Qed.

Lemma own_property_Permutation props props' key :
  NoDup (map fst props) -> Permutation props props' ->
  own_property props' key = own_property props key.
Proof.
  intros Hnd Hp.
  assert (Hnd' : NoDup (map fst props'))
    by (eapply Permutation_NoDup; [apply Permutation_map; exact Hp | exact Hnd]).
  destruct (own_property props key) as [v|] eqn:E.
  - apply (own_property_In _ _ _ Hnd').
    eapply Permutation_in; [exact Hp|].
    now apply (own_property_In _ _ _ Hnd).
  - destruct (own_property props' key) as [v'|] eqn:E'; [|reflexivity].
    apply (own_property_In _ _ _ Hnd') in E'.
    apply Permutation_sym in Hp.
    apply (Permutation_in _ Hp) in E'.
    apply (own_property_In _ _ _ Hnd) in E'. congruence.
Qed.

Lemma for_of_ext (A S : Type) (xs : list A) (f g : A -> S -> completion S) :
  (forall x s, In x xs -> f x s = g x s) ->
  forall s, for_of xs f s = for_of xs g s.
Proof.
  induction xs as [|x xs IH]; simpl; intros H s; [reflexivity|].
  rewrite (H x s (or_introl eq_refl)).
  destruct (g x s); [|reflexivity].
  apply IH. intros; apply H; now right.
Qed.

(** A loop whose every turn appends [g x] to the array. *)
Lemma for_of_flat_map (A X : Type) (xs : list A)
    (f : A -> list X -> completion (list X)) (g : A -> list X) :
  (forall x acc, In x xs -> f x acc = Normal (acc ++ g x)) ->
  forall acc, for_of xs f acc = Normal (acc ++ flat_map g xs).
Proof.
  induction xs as [|x xs IH]; simpl; intros H acc.
  - now rewrite app_nil_r.
  - rewrite (H x acc (or_introl eq_refl)).
    rewrite IH by (intros; apply H; now right).
    now rewrite <- app_assoc.
Qed.

(** A loop that ends has gone through every turn. *)
Lemma for_of_normal (A S : Type) (xs : list A)
    (f : A -> S -> completion S) (s s' : S) x :
  for_of xs f s = Normal s' -> In x xs -> exists a a', f x a = Normal a'.
Proof.
  revert s. induction xs as [|y xs IH]; simpl; intros s H Hx; [destruct Hx|].
  destruct (f y s) as [s0|e] eqn:E; [|discriminate].
  destruct Hx as [<-|Hx]; [now exists s, s0 | now apply (IH s0)].
Qed.

(** A loop that throws does so in one of its turns. *)
Lemma for_of_throw (A S : Type) (xs : list A)
    (f : A -> S -> completion S) (s : S) e :
  for_of xs f s = Throw e -> exists x s', In x xs /\ f x s' = Throw e.
Proof.
  revert s. induction xs as [|x xs IH]; simpl; intros s; [discriminate|].
  destruct (f x s) as [s'|e0] eqn:E.
  - intros H. destruct (IH _ H) as (y & s0 & Hy & Hf).
    exists y, s0. split; [now right | exact Hf].
  - intros [= <-]. exists x, s. split; [now left | exact E].
Qed.

End PropertyLists.

(** ** The user message *)

Section UserMessage.
Import JS Host.

Lemma Get_field body key :
  body <> VNull -> Get body key = Normal (Spec.field body key).
Proof.
  intros Hb. unfold Spec.field.
  destruct body; try reflexivity. congruence.
Qed.

Lemma keys_cases (P : jsstring -> Prop) :
  P (lit "name") -> P (lit "roast") -> P (lit "origin") ->
  P (lit "process") -> P (lit "varietal") -> P (lit "masl") ->
  P (lit "roastDate") -> P (lit "brewProfile") ->
  forall key, In key Spec.keys -> P key.
Proof.
  intros H1 H2 H3 H4 H5 H6 H7 H8 key Hin.
  repeat (destruct Hin as [<-|Hin]; [assumption|]).
  destruct Hin.
Qed.

Lemma mapping_label key :
  In key Spec.keys ->
  Get Worker.mapping key = Normal (Some (VString (Spec.label key))).
Proof.
  revert key. apply keys_cases; reflexivity.
Qed.

Lemma call_toString_text v :
  Spec.converts v = true -> ToBoolean (Some v) = true ->
  call_toString (Some v) = Normal (Spec.text v).
Proof.
  unfold Spec.converts, Spec.text.
  destruct v as [|b|n|s|elts|props]; intros Hc Ht.
  - discriminate Ht.
  - destruct b; reflexivity.
  - reflexivity.
  - reflexivity.
  - unfold call_toString.
    destruct (ToString (VArray elts)); [reflexivity|discriminate].
  - simpl in *.
    destruct (hasOwn props (lit "toString")); [discriminate|reflexivity].
Qed.

Lemma TemplateToString_text v :
  Spec.converts v = true -> TemplateToString (Some v) = Normal (Spec.text v).
Proof.
  unfold Spec.converts, Spec.text, TemplateToString.
  destruct (ToString v); [reflexivity|discriminate].
Qed.

(** One turn of the loop, for a key of the table. *)
Lemma loop_body_spec body key (acc : list jsstring) :
  body <> VNull -> Spec.convertible body -> In key Spec.keys ->
  (present <- Get body key ;;
   keep <- (if ToBoolean present then
              again <- Get body key ;;
              text <- call_toString again ;;
              ret (negb (jsstring_eqb (trim text) []))
            else ret false) ;;
   if keep : bool then
     label <- Get Worker.mapping key ;;
     label' <- TemplateToString label ;;
     value <- Get body key ;;
     value' <- TemplateToString value ;;
     ret (acc ++ [label' ++ lit ": " ++ value'])
   else ret acc)
  = Normal (acc ++ Spec.rendered body key).
Proof.
  intros Hb Hconv Hkey.
  rewrite (Get_field key Hb), (mapping_label Hkey).
  unfold Spec.rendered, Spec.line, Spec.passes.
  specialize (Hconv key).
  destruct (Spec.field body key) as [v|];
    [|cbn [bind ret completion_Monad ToBoolean]; now rewrite app_nil_r].
  specialize (Hconv v Hkey eq_refl).
  monad.
  destruct (ToBoolean (Some v)) eqn:Ht; [|monad; now rewrite app_nil_r].
  rewrite (call_toString_text _ Hconv Ht).
  cbn [bind ret completion_Monad andb].
  destruct (negb (jsstring_eqb (trim (Spec.text v)) []));
    [|now rewrite app_nil_r].
  now rewrite (TemplateToString_text _ Hconv).
Qed.

Lemma Worker_lines_spec body :
  body <> VNull -> Spec.convertible body ->
  Worker.lines body = Normal (Spec.rendered_lines body).
Proof.
  intros Hb Hconv. unfold Worker.lines, Spec.rendered_lines.
  change (Object_keys Worker.mapping) with Spec.keys.
  rewrite (for_of_flat_map Spec.keys _ (Spec.rendered body)).
  - reflexivity.
  - intros key acc Hkey. now apply loop_body_spec.
Qed.

Lemma Worker_userMessage_spec body :
  body <> VNull -> Spec.convertible body ->
  Worker.userMessage body = Normal (Spec.user_message body).
Proof.
  intros Hb Hconv. unfold Worker.userMessage.
  now rewrite (Worker_lines_spec Hb Hconv).
Qed.

(** When the loop ends, the body is not null and every recognized value
    has a string form. *)
Lemma Worker_lines_normal body ls :
  Worker.lines body = Normal ls -> body <> VNull /\ Spec.convertible body.
Proof.
  intros H.
  assert (Hb : body <> VNull) by (intros ->; discriminate H).
  split; [exact Hb|].
  intros key v Hk Hf.
  destruct (Spec.converts v) eqn:Hc; [reflexivity|]. exfalso.
  unfold Worker.lines in H.
  change (Object_keys Worker.mapping) with Spec.keys in H.
  destruct (for_of_normal _ _ _ key H Hk) as (a & a' & Ha).
  revert Ha. rewrite (Get_field key Hb), Hf. monad.
  unfold Spec.converts in Hc.
  destruct v as [|[|]|n|s|elts|props]; try discriminate Hc;
    cbn [ToBoolean call_toString].
  - destruct (ToString (VArray elts)); [discriminate Hc | discriminate].
  - cbn [ToString] in Hc.
    destruct (hasOwn props (lit "toString")); [discriminate | discriminate Hc].
Qed.

(** The message depends on the body through its recognized fields only. *)
Lemma Worker_lines_fields body body' :
  (forall key, Get body' key = Get body key) ->
  Worker.lines body' = Worker.lines body.
Proof.
  intros H. unfold Worker.lines.
  apply for_of_ext. intros key acc _.
  now rewrite !H.
Qed.

(** The three copies of the locals are the same terms. *)
Lemma locals_eq :
  Pages.HandlePost.lines = Worker.lines
  /\ Pages.OnRequestPost.lines = Worker.lines
  /\ Pages.HandlePost.systemPrompt = Worker.systemPrompt
  /\ Pages.OnRequestPost.systemPrompt = Worker.systemPrompt
  /\ Pages.HandlePost.content = Worker.content
  /\ Pages.OnRequestPost.content = Worker.content.
Proof. repeat split. Qed.

End UserMessage.

(** ** The handlers *)

Section Handlers.
Import JS Host.

Lemma invalid_request_body text :
  JSON_stringify (VObject [ (lit "error", VString (lit "Invalid request"));
                            (lit "message", VString text) ])
  = body (Spec.invalid_request text).
Proof.
  cbn [JSON_stringify map join body Spec.invalid_request].
  generalize (QuoteJSONString text); intros q.
  repeat rewrite <- app_assoc. vm_compute. reflexivity.
Qed.

Lemma upstream_error_body details :
  JSON_stringify (VObject [ (lit "error", VString (lit "OpenAI API error"));
                            (lit "details", VString details) ])
  = body (Spec.upstream_error details).
Proof.
  cbn [JSON_stringify map join body Spec.upstream_error].
  generalize (QuoteJSONString details); intros q.
  repeat rewrite <- app_assoc. vm_compute. reflexivity.
Qed.

Lemma success_body html :
  JSON_stringify (VObject [ (lit "html", html) ])
  = body (Spec.success html).
Proof.
  cbn [JSON_stringify map join body Spec.success].
  generalize (JSON_stringify html); intros q.
  repeat rewrite <- app_assoc. vm_compute. reflexivity.
Qed.

(** The decision tree of the [try] block. *)
Lemma try_block_unfold request env up log :
  Worker.try_block request env up log =
  match req_json request with
  | Throw e => (Throw e, log)
  | Normal body =>
      match Worker.userMessage body with
      | Throw e => (Throw e, log)
      | Normal msg =>
          let call := Spec.outbound env Worker.systemPrompt msg in
          match up call with
          | Throw e => (Throw e, log ++ [call])
          | Normal res =>
              if negb (res_ok res) then
                match res_text res with
                | Throw e => (Throw e, log ++ [call])
                | Normal t => (Normal (Spec.upstream_error t), log ++ [call])
                end
              else
                match res_json res with
                | Throw e => (Throw e, log ++ [call])
                | Normal result =>
                    match Worker.content result with
                    | Throw e => (Throw e, log ++ [call])
                    | Normal c =>
                        (Normal {| status := 200;
                                   headers := Spec.json_headers;
                                   body := JSON_stringify
                                     (VObject (member (lit "html") c)) |},
                         log ++ [call])
                    end
                end
          end
      end
  end.
Proof.
  unfold Worker.try_block.
  cbn [bind ret M_Monad lift].
  destruct (req_json request) as [body|e]; [|reflexivity].
  destruct (Worker.userMessage body) as [msg|e]; [|reflexivity].
  unfold global_fetch.
  change {| call_url := lit "https://api.openai.com/v1/chat/completions";
            call_method := lit "POST";
            call_headers := [ (lit "Content-Type", lit "application/json");
                              (lit "Authorization", Bearer env) ];
            call_body := JSON_stringify (Worker.payload msg) |}
    with (Spec.outbound env Worker.systemPrompt msg).
  cbv zeta.
  destruct (up (Spec.outbound env Worker.systemPrompt msg)) as [res|e];
    [|reflexivity].
  destruct (negb (res_ok res)).
  - destruct (res_text res) as [t|e]; [|reflexivity].
    cbn [ret M_Monad]. unfold new_Response.
    rewrite upstream_error_body. reflexivity.
  - destruct (res_json res) as [result|e]; [|reflexivity].
    destruct (Worker.content result); reflexivity.
Qed.

Lemma catch_block_unfold err up log :
  Worker.catch_block err up log
  = (Normal (Spec.invalid_request (message err)), log).
Proof.
  unfold Worker.catch_block. cbn [ret M_Monad]. unfold new_Response.
  rewrite invalid_request_body. reflexivity.
Qed.

Lemma method_not_allowed_body :
  JSON_stringify (VObject [ (lit "error", VString (lit "Method Not Allowed")) ])
  = Spec.jsontext "{'error':'Method Not Allowed'}".
Proof. vm_compute. reflexivity. Qed.

Lemma Worker_fetch_other request env up :
  req_method request <> lit "POST" ->
  run (Worker.fetch request env) up = (Normal Spec.method_not_allowed, []).
Proof.
  intros H. apply jsstring_eqb_neq in H.
  unfold run, Worker.fetch. rewrite H.
  cbn [negb ret M_Monad]. unfold new_Response, Spec.method_not_allowed.
  now rewrite method_not_allowed_body.
Qed.

Lemma Worker_fetch_POST request env up :
  req_method request = lit "POST" ->
  run (Worker.fetch request env) up
  = match Worker.try_block request env up [] with
    | (Throw err, log) => (Normal (Spec.invalid_request (message err)), log)
    | r => r
    end.
Proof.
  intros H. apply jsstring_eqb_eq in H.
  unfold run, Worker.fetch. rewrite H. cbn [negb]. unfold try_catch.
  destruct (Worker.try_block request env up []) as [[r|err] log];
    [reflexivity | apply catch_block_unfold].
Qed.

(** The Pages handlers are the same terms as the worker's. *)
Lemma handlePost_eq request env :
  Pages.handlePost {| request := request; env := env |}
  = try_catch (Worker.try_block request env) Worker.catch_block.
Proof. reflexivity. Qed.

Lemma onRequestPost_eq request env :
  Pages.onRequestPost {| request := request; env := env |}
  = try_catch (Worker.try_block request env) Worker.catch_block.
Proof. reflexivity. Qed.

Lemma onRequest_eq request env up :
  run (Pages.onRequest {| request := request; env := env |}) up
  = run (Worker.fetch request env) up.
Proof.
  unfold run, Pages.onRequest, Worker.fetch.
  cbn [Host.request Host.env].
  destruct (jsstring_eqb (req_method request) (lit "POST")); reflexivity.
Qed.

Lemma onRequestPost_POST request env up :
  req_method request = lit "POST" ->
  run (Pages.onRequestPost {| request := request; env := env |}) up
  = run (Worker.fetch request env) up.
Proof.
  intros H. apply jsstring_eqb_eq in H.
  rewrite onRequestPost_eq. unfold run, Worker.fetch. now rewrite H.
Qed.

(** Whatever the request and the upstream, the [try] statement ends
    with a response, of status 200, 400 or 500 and typed as JSON. *)
Lemma try_catch_total request env up log :
  exists r log',
    try_catch (Worker.try_block request env) Worker.catch_block up log
    = (Normal r, log')
    /\ headers r = Spec.json_headers
    /\ In (status r) [200; 400; 500]%Z.
Proof.
  unfold try_catch. rewrite try_block_unfold.
  destruct (req_json request) as [body|e];
    [|eexists _, _; rewrite catch_block_unfold; simpl; eauto].
  destruct (Worker.userMessage body) as [msg|e];
    [|eexists _, _; rewrite catch_block_unfold; simpl; eauto].
  cbv zeta.
  destruct (up _) as [res|e];
    [|eexists _, _; rewrite catch_block_unfold; simpl; eauto].
  destruct (negb (res_ok res)).
  - destruct (res_text res);
      eexists _, _; rewrite ?catch_block_unfold; simpl; eauto 6.
  - destruct (res_json res) as [result|e];
      [|eexists _, _; rewrite catch_block_unfold; simpl; eauto].
    destruct (Worker.content result);
      eexists _, _; rewrite ?catch_block_unfold; simpl; eauto 6.
Qed.

End Handlers.

Section OutboundText.
Import JS Host.

(** The text of the outbound body. *)
Lemma outbound_body_text system user :
  JSON_stringify (Spec.outbound_body system user)
  = Spec.jsontext "{'model':'gpt-3.5-turbo','messages':[{'role':'system','content':"
    ++ QuoteJSONString system
    ++ Spec.jsontext "},{'role':'user','content':"
    ++ QuoteJSONString user
    ++ Spec.jsontext "}],'temperature':0.5,'max_tokens':800}".
Proof.
  unfold Spec.outbound_body.
  cbn [JSON_stringify map join].
  generalize (QuoteJSONString system) (QuoteJSONString user).
  intros qs qu.
  repeat rewrite <- app_assoc.
  vm_compute. reflexivity.
Qed.

End OutboundText.

(** ** The entry points *)

Section EntryPoints.
Import JS Host.

Lemma attempt_eq p request env :
  Relay.attempt p request env = Worker.try_block request env.
Proof. destruct p; reflexivity. Qed.

Lemma userMessage_eq p : Relay.userMessage p = Worker.userMessage.
Proof. destruct p; reflexivity. Qed.

Lemma lines_eq p : Relay.lines p = Worker.lines.
Proof. destruct p; reflexivity. Qed.

Lemma systemPrompt_eq p : Relay.systemPrompt p = Worker.systemPrompt.
Proof. destruct p; reflexivity. Qed.

(** What an entry point does with a POST request. *)
Lemma handler_POST p request env up :
  req_method request = lit "POST" ->
  run (Relay.handler p request env) up
  = match Worker.try_block request env up [] with
    | (Throw err, log) => (Normal (Spec.invalid_request (message err)), log)
    | r => r
    end.
Proof.
  intros H. destruct p; cbn [Relay.handler].
  - now apply Worker_fetch_POST.
  - rewrite onRequest_eq. now apply Worker_fetch_POST.
  - rewrite onRequestPost_POST by exact H. now apply Worker_fetch_POST.
Qed.

(** [onRequestPost] does the same whatever the method. *)
Lemma onRequestPost_run request env up :
  run (Pages.onRequestPost {| request := request; env := env |}) up
  = match Worker.try_block request env up [] with
    | (Throw err, log) => (Normal (Spec.invalid_request (message err)), log)
    | r => r
    end.
Proof.
  rewrite onRequestPost_eq. unfold run, try_catch.
  destruct (Worker.try_block request env up []) as [[r|err] log];
    [reflexivity | apply catch_block_unfold].
Qed.

(** An entry point either rejects the method, calling nothing, or runs
    the [try] statement. *)
Lemma handler_cases p request env up :
  run (Relay.handler p request env) up = (Normal Spec.method_not_allowed, [])
  \/ run (Relay.handler p request env) up
     = match Worker.try_block request env up [] with
       | (Throw err, log) =>
           (Normal (Spec.invalid_request (message err)), log)
       | r => r
       end.
Proof.
  destruct (jsstring_eqb (req_method request) (lit "POST")) eqn:E.
  - right. apply handler_POST. now apply jsstring_eqb_eq.
  - apply jsstring_eqb_neq in E. destruct p; cbn [Relay.handler].
    + left. now apply Worker_fetch_other.
    + left. rewrite onRequest_eq. now apply Worker_fetch_other.
    + right. apply onRequestPost_run.
Qed.

(** The calls that the [try] block has made when it ends. *)
Lemma try_block_log request env up r log :
  Worker.try_block request env up [] = (r, log) ->
  log = []
  \/ exists parsed msg,
       req_json request = Normal parsed
       /\ Worker.userMessage parsed = Normal msg
       /\ log = [Spec.outbound env Worker.systemPrompt msg].
Proof.
  rewrite try_block_unfold.
  destruct (req_json request) as [parsed|e0]; [|intros [= _ <-]; now left].
  destruct (Worker.userMessage parsed) as [msg|e0] eqn:Hu;
    [|intros [= _ <-]; now left].
  cbv zeta. intros H. right. exists parsed, msg.
  split; [reflexivity|]. split; [exact Hu|].
  destruct (up _) as [res|e0]; [|now injection H as _ <-].
  destruct (negb (res_ok res)).
  - destruct (res_text res); now injection H as _ <-.
  - destruct (res_json res) as [result|e1]; [|now injection H as _ <-].
    destruct (Worker.content result); now injection H as _ <-.
Qed.

End EntryPoints.

(** ** The responses *)

Section Responses.
Import JS Host.

(** C4: a request whose method is not POST is answered by
    [fetch] and by [onRequest] with status 405 and the body
    [{"error":"Method Not Allowed"}], and the upstream is not called. *)
Theorem C4_other_methods_rejected request env up :
  req_method request <> lit "POST" ->
  let rejection :=
    {| status := 405;
       headers := [ (lit "Content-Type", lit "application/json") ];
       body := Spec.jsontext "{'error':'Method Not Allowed'}" |} in
  run (Worker.fetch request env) up = (Normal rejection, [])
  /\ run (Pages.onRequest {| request := request; env := env |}) up
     = (Normal rejection, []).
Proof.
  intros H rejection. rewrite onRequest_eq.
  split; now apply Worker_fetch_other.
Qed.

Lemma C4_witness :
  run (Worker.fetch Sample.get Sample.env)
      (Sample.answering Sample.rate_limited)
  = (Normal Spec.method_not_allowed, []).
Proof.
  refine (proj1 (@C4_other_methods_rejected Sample.get Sample.env
                   (Sample.answering Sample.rate_limited) _)).
  vm_compute. discriminate.
Defined.

(** C3: the entry points behave alike.  [onRequest] answers every
    request as the worker's [fetch] does, and so does [onRequestPost] on
    the requests it is written for and the Pages router hands to it,
    those of method POST: the same response (status, headers and body)
    and the same outbound calls, for every environment and upstream. *)
Theorem C3_entry_points_agree request env up :
  run (Pages.onRequest {| request := request; env := env |}) up
  = run (Worker.fetch request env) up
  /\ (req_method request = lit "POST" ->
      run (Pages.onRequestPost {| request := request; env := env |}) up
      = run (Worker.fetch request env) up).
Proof.
  split; [apply onRequest_eq | apply onRequestPost_POST].
Qed.

Lemma C3_witness :
  run (Pages.onRequestPost
         {| request := Sample.post Sample.bourbon; env := Sample.env |})
      (Sample.answering (Sample.completed Sample.one_choice))
  = run (Worker.fetch (Sample.post Sample.bourbon) Sample.env)
      (Sample.answering (Sample.completed Sample.one_choice)).
Proof.
  apply (@C3_entry_points_agree (Sample.post Sample.bourbon) Sample.env
           (Sample.answering (Sample.completed Sample.one_choice))).
  reflexivity.
Defined.

(** C10: every response of every entry point, whether its status is
    405, 400, 500 or 200, carries [Content-Type: application/json];
    and every run of an entry point ends with a response. *)
Theorem C10_every_response_is_json p request env up :
  exists r log,
    run (Relay.handler p request env) up = (Normal r, log)
    /\ headers r = [ (lit "Content-Type", lit "application/json") ]
    /\ In (status r) [200; 400; 405; 500]%Z.
Proof.
  destruct (handler_cases p request env up) as [H|H]; rewrite H.
  - exists Spec.method_not_allowed, [].
    repeat split; simpl; tauto.
  - destruct (try_catch_total request env up []) as (r & log & Ht & Hh & Hs).
    unfold try_catch in Ht.
    destruct (Worker.try_block request env up []) as [[r0|err] log0].
    + injection Ht as -> ->. exists r, log.
      repeat split; [exact Hh | simpl in *; tauto].
    + rewrite catch_block_unfold in Ht. injection Ht as <- <-.
      eexists _, _. repeat split; simpl; tauto.
Qed.

(** C6: when the upstream answers a POST request with a non-success
    status and the text [details], every entry point answers 500 with
    the body [{"error":"OpenAI API error","details":<details>}], having
    made that one call; for [rate limited] the body is exactly
    [{"error":"OpenAI API error","details":"rate limited"}]. *)
Theorem C6_upstream_failure p request env up parsed msg res details :
  req_method request = lit "POST" ->
  req_json request = Normal parsed ->
  Relay.userMessage p parsed = Normal msg ->
  up (Spec.outbound env (Relay.systemPrompt p) msg) = Normal res ->
  res_ok res = false ->
  res_text res = Normal details ->
  run (Relay.handler p request env) up
  = (Normal {| status := 500;
               headers := [ (lit "Content-Type", lit "application/json") ];
               body := Spec.jsontext "{'error':'OpenAI API error','details':"
                       ++ QuoteJSONString details ++ Spec.jsontext "}" |},
     [Spec.outbound env (Relay.systemPrompt p) msg])
  /\ (details = lit "rate limited" ->
      body_of (run (Relay.handler p request env) up)
      = Some (Spec.jsontext
                "{'error':'OpenAI API error','details':'rate limited'}")).
Proof.
  rewrite userMessage_eq, systemPrompt_eq.
  intros Hm Hj Hu Hup Hok Ht.
  assert (H : run (Relay.handler p request env) up
              = (Normal (Spec.upstream_error details),
                 [Spec.outbound env Worker.systemPrompt msg])).
  { rewrite handler_POST by exact Hm. rewrite try_block_unfold, Hj, Hu.
    cbv zeta. rewrite Hup, Hok. cbn [negb]. now rewrite Ht. }
  split; [exact H|].
  intros ->. rewrite H. reflexivity.
Qed.

Lemma C6_witness :
  body_of (run (Relay.handler Relay.PagesOnRequest
                  (Sample.post Sample.bourbon) Sample.env)
             (Sample.answering Sample.rate_limited))
  = Some (Spec.jsontext
            "{'error':'OpenAI API error','details':'rate limited'}").
Proof.
  refine (proj2
    (@C6_upstream_failure Relay.PagesOnRequest
       (Sample.post Sample.bourbon) Sample.env
       (Sample.answering Sample.rate_limited)
       Sample.bourbon
       (lit "Name: El Salvador Bourbon" ++ LF ++ lit "Roast profile: Light")
       Sample.rate_limited (lit "rate limited") _ _ _ _ _ _) _);
    reflexivity.
Defined.

End Responses.

(** ** The outbound call *)

Section OutboundCall.
Import JS Host.

(** C9: every call that an entry point makes carries the body
    [{ model, messages: [system, user], temperature: 0.5,
    max_tokens: 800 }], written out below, where the user message is
    the one built from the parsed body and the system message is the
    same constant for every entry point, request and environment; and
    the entry point makes no other call. *)
Theorem C9_outbound_body p request env up call :
  In call (snd (run (Relay.handler p request env) up)) ->
  exists parsed user,
    req_json request = Normal parsed
    /\ Relay.userMessage p parsed = Normal user
    /\ snd (run (Relay.handler p request env) up) = [call]
    /\ call_body call
       = JSON_stringify
           (VObject
              [ (lit "model", VString (lit "gpt-3.5-turbo"));
                (lit "messages",
                 VArray
                   [ VObject [ (lit "role", VString (lit "system"));
                               (lit "content",
                                VString (Relay.systemPrompt p)) ];
                     VObject [ (lit "role", VString (lit "user"));
                               (lit "content", VString user) ] ]);
                (lit "temperature", VNumber (S754_finite false 1 (-1)));
                (lit "max_tokens", VNumber (S754_finite false 800 0)) ])
    /\ call_body call
       = Spec.jsontext
           "{'model':'gpt-3.5-turbo','messages':[{'role':'system','content':"
         ++ QuoteJSONString (Relay.systemPrompt p)
         ++ Spec.jsontext "},{'role':'user','content':"
         ++ QuoteJSONString user
         ++ Spec.jsontext "}],'temperature':0.5,'max_tokens':800}"
    /\ Relay.systemPrompt p = Worker.systemPrompt.
Proof.
  intros Hin.
  rewrite userMessage_eq, systemPrompt_eq.
  destruct (handler_cases p request env up) as [H|H]; rewrite H in Hin |- *.
  - destruct Hin.
  - destruct (Worker.try_block request env up []) as [r log] eqn:Ht.
    destruct (try_block_log _ _ _ Ht) as [->|(parsed & user & Hj & Hu & ->)];
      destruct r as [r|err]; cbn [snd] in Hin |- *;
      try (destruct Hin; fail).
    all: destruct Hin as [<-|[]].
    all: exists parsed, user.
    all: repeat split; try assumption.
    all: apply outbound_body_text.
Qed.

Lemma sample_log :
  snd (run (Relay.handler Relay.WorkerFetch (Sample.post Sample.bourbon)
              Sample.env)
         (Sample.answering Sample.rate_limited))
  = [Spec.outbound Sample.env Worker.systemPrompt
       (lit "Name: El Salvador Bourbon" ++ LF ++ lit "Roast profile: Light")].
Proof. vm_compute. reflexivity. Qed.

Lemma C9_witness :
  exists parsed user,
    req_json (Sample.post Sample.bourbon) = Normal parsed
    /\ Relay.userMessage Relay.WorkerFetch parsed = Normal user.
Proof.
  destruct (@C9_outbound_body Relay.WorkerFetch (Sample.post Sample.bourbon)
              Sample.env (Sample.answering Sample.rate_limited)
              (Spec.outbound Sample.env Worker.systemPrompt
                 (lit "Name: El Salvador Bourbon" ++ LF
                  ++ lit "Roast profile: Light")))
    as (parsed & user & Hj & Hu & _).
  - rewrite sample_log. left. reflexivity.
  - exists parsed, user. split; [exact Hj | exact Hu].
Defined.

End OutboundCall.

(** ** The empty request *)

Section EmptyRequest.
Import JS Host.

Lemma all_blank_not_null parsed : Spec.all_blank parsed -> parsed <> VNull.
Proof.
  intros H ->.
  destruct (H (lit "name")) as [H1|[H1|(s & H1 & _)]];
    [left; reflexivity | | |]; discriminate H1.
Qed.

Lemma all_blank_fields parsed key :
  Spec.all_blank parsed -> In key Spec.keys ->
  Spec.field parsed key = None
  \/ Spec.field parsed key = Some VNull
  \/ exists s, Spec.field parsed key = Some (VString s) /\ trim s = [].
Proof.
  intros H Hk. unfold Spec.field.
  destruct (H key Hk) as [->|[->|(s & -> & Hs)]]; eauto.
Qed.

Lemma all_blank_convertible parsed :
  Spec.all_blank parsed -> Spec.convertible parsed.
Proof.
  intros H key v Hk Hf.
  destruct (all_blank_fields H Hk) as [E|[E|(s & E & _)]];
    rewrite E in Hf; [discriminate| |]; injection Hf as <-; reflexivity.
Qed.

(** A body whose recognized fields are all blank renders no line. *)
Lemma all_blank_no_lines parsed :
  Spec.all_blank parsed -> Spec.rendered_lines parsed = [].
Proof.
  intros H. unfold Spec.rendered_lines.
  assert (G : forall l, incl l Spec.keys ->
                flat_map (Spec.rendered parsed) l = []);
    [|apply G, incl_refl].
  induction l as [|key l IH]; intros Hl; [reflexivity|].
  cbn [flat_map].
  rewrite IH by (intros x Hx; apply Hl; now right).
  rewrite app_nil_r. unfold Spec.rendered.
  destruct (all_blank_fields H (Hl key (or_introl eq_refl)))
    as [E|[E|(s & E & Hs)]]; rewrite E; try reflexivity.
  unfold Spec.passes, Spec.text. cbn [ToString].
  rewrite Hs. cbn [jsstring_eqb negb]. now rewrite andb_false_r.
Qed.

(** A body other than [null] can be read under every key. *)
Lemma Get_normal parsed key :
  parsed <> VNull -> Get parsed key = Normal (Spec.field parsed key).
Proof.
  intros Hn. unfold Spec.field.
  destruct parsed; try reflexivity. now destruct Hn.
Qed.

Lemma every_field_blank_all_blank parsed :
  parsed <> VNull -> Spec.every_field_blank parsed -> Spec.all_blank parsed.
Proof.
  intros Hn H key Hk. rewrite (Get_normal key Hn).
  destruct (H key Hk) as [->|[->|(s & -> & Hs)]]; eauto.
Qed.

(** C8, as amended: when the parsed body of a POST request is not
    [null] and every recognized field of it is absent, null or
    whitespace-only, the user message is the empty string and the entry
    point makes exactly one call, the one that carries the empty user
    message. *)
Theorem C8_empty_request_is_relayed p request env up parsed :
  req_method request = lit "POST" ->
  req_json request = Normal parsed ->
  parsed <> VNull ->
  Spec.every_field_blank parsed ->
  Relay.userMessage p parsed = Normal []
  /\ snd (run (Relay.handler p request env) up)
     = [Spec.outbound env (Relay.systemPrompt p) []].
Proof.
  intros Hm Hj Hn He.
  pose proof (every_field_blank_all_blank Hn He) as Hb.
  rewrite userMessage_eq, systemPrompt_eq.
  assert (Hu : Worker.userMessage parsed = Normal []).
  { rewrite (Worker_userMessage_spec Hn (all_blank_convertible Hb)).
    unfold Spec.user_message. now rewrite (all_blank_no_lines Hb). }
  split; [exact Hu|].
  rewrite handler_POST by exact Hm.
  rewrite try_block_unfold, Hj, Hu. cbv zeta.
  destruct (up _) as [res|e]; [|reflexivity].
  destruct (negb (res_ok res)).
  - destruct (res_text res); reflexivity.
  - destruct (res_json res) as [result|e]; [|reflexivity].
    destruct (Worker.content result); reflexivity.
Qed.

Lemma blank_name_every_field_blank :
  Spec.every_field_blank Sample.blank_name.
Proof.
  intros key Hk. revert key Hk. apply keys_cases;
    first [ left; reflexivity
          | right; right; eexists; split; vm_compute; reflexivity ].
Qed.

Lemma C8_witness :
  Relay.userMessage Relay.PagesOnRequestPost Sample.blank_name = Normal []
  /\ snd (run (Relay.handler Relay.PagesOnRequestPost
                 (Sample.post Sample.blank_name) Sample.env)
            (Sample.answering Sample.rate_limited))
     = [Spec.outbound Sample.env
          (Relay.systemPrompt Relay.PagesOnRequestPost) []].
Proof.
  apply (@C8_empty_request_is_relayed Relay.PagesOnRequestPost
           (Sample.post Sample.blank_name) Sample.env
           (Sample.answering Sample.rate_limited) Sample.blank_name).
  - reflexivity.
  - reflexivity.
  - discriminate.
  - exact blank_name_every_field_blank.
Defined.

(** C8, as stated, fails for the body [null]: every recognized field of
    it is absent, yet reading [name] from it throws, no user message is
    built, and the POST request is answered 400 without a call, by each
    of the three entry points. *)
Lemma C8_counterexample :
  let up := Sample.answering (Sample.completed Sample.one_choice) in
  let request := Sample.post VNull in
  let refusal :=
    Spec.invalid_request
      (lit "Cannot read properties of null (reading 'name')") in
  Spec.every_field_blank VNull
  /\ Worker.userMessage VNull
     = Throw (TypeError
                (lit "Cannot read properties of null (reading 'name')"))
  /\ run (Worker.fetch request Sample.env) up = (Normal refusal, [])
  /\ run (Pages.onRequest {| request := request; env := Sample.env |}) up
     = (Normal refusal, [])
  /\ run (Pages.onRequestPost {| request := request; env := Sample.env |}) up
     = (Normal refusal, []).
Proof.
  cbv zeta.
  split; [intros key _; left; reflexivity|].
  split; [reflexivity|].
  assert (H : run (Worker.fetch (Sample.post VNull) Sample.env)
                (Sample.answering (Sample.completed Sample.one_choice))
              = (Normal (Spec.invalid_request
                   (lit "Cannot read properties of null (reading 'name')")),
                 [])).
  { rewrite Worker_fetch_POST by reflexivity.
    rewrite try_block_unfold. reflexivity. }
  split; [exact H|].
  split; [rewrite onRequest_eq; exact H|].
  rewrite onRequestPost_POST by reflexivity. exact H.
Qed.

End EmptyRequest.

(** ** The upstream content *)

Section Content.
Import JS Host.

Lemma OptionalGet_step base key :
  OptionalGet base key = Normal (Spec.step base key).
Proof.
  destruct base as [b|]; [|reflexivity].
  destruct b; try reflexivity.
Qed.

(** The value of [result.choices?.[0]?.message?.content || '']. *)
Lemma content_spec result :
  result <> VNull ->
  Worker.content result
  = Normal (LogicalOr
              (Spec.step (Spec.step (Spec.step (Spec.step (Some result)
                 (lit "choices")) (lit "0")) (lit "message")) (lit "content"))
              (Some (VString []))).
Proof.
  intros Hr. unfold Worker.content.
  rewrite (Get_field _ Hr). cbn [bind ret completion_Monad].
  rewrite !OptionalGet_step. cbn [bind ret completion_Monad].
  destruct result; reflexivity.
Qed.

Lemma content_html result :
  result <> VNull ->
  Worker.content result = Normal (Some (Spec.html result)).
Proof.
  intros Hr. rewrite (content_spec Hr).
  unfold Spec.html, Spec.message_content, LogicalOr.
  destruct (Spec.step _ (lit "content")) as [c|]; [|reflexivity].
  destruct (ToBoolean (Some c)); reflexivity.
Qed.

Lemma content_throw result e :
  Worker.content result = Throw e -> message e <> [].
Proof.
  destruct result; try (rewrite content_spec by discriminate; discriminate).
  intros [= <-]. discriminate.
Qed.

End Content.

Section UpstreamSuccess.
Import JS Host.

(** C7, as amended: when the upstream answers a POST request with a
    success status and a body that parses to a value other than null,
    every entry point answers 200 with the body [{"html": c}], where
    [c] is the [choices[0].message.content] of that value when it is
    there and truthy, and the empty string when a part of the path is
    missing or the content is null, false, zero or empty; a string
    content is passed on as it is, and without [choices] the body is
    exactly the object whose only member [html] is the empty string. *)
Theorem C7_upstream_success p request env up parsed msg res result :
  req_method request = lit "POST" ->
  req_json request = Normal parsed ->
  Relay.userMessage p parsed = Normal msg ->
  up (Spec.outbound env (Relay.systemPrompt p) msg) = Normal res ->
  res_ok res = true ->
  res_json res = Normal result ->
  result <> VNull ->
  run (Relay.handler p request env) up
  = (Normal {| status := 200;
               headers := [ (lit "Content-Type", lit "application/json") ];
               body := Spec.jsontext "{'html':"
                       ++ JSON_stringify
                            match Spec.message_content result with
                            | Some c =>
                                if ToBoolean (Some c) then c else VString []
                            | None => VString []
                            end
                       ++ Spec.jsontext "}" |},
     [Spec.outbound env (Relay.systemPrompt p) msg])
  /\ (forall s,
        Spec.message_content result = Some (VString s) ->
        body_of (run (Relay.handler p request env) up)
        = Some (Spec.jsontext "{'html':" ++ QuoteJSONString s
                ++ Spec.jsontext "}"))
  /\ (Spec.field result (lit "choices") = None ->
      body_of (run (Relay.handler p request env) up)
      = Some (Spec.jsontext "{'html':''}")).
Proof.
  rewrite userMessage_eq, systemPrompt_eq.
  intros Hm Hj Hu Hup Hok Hres Hnn.
  assert (H : run (Relay.handler p request env) up
              = (Normal (Spec.success (Spec.html result)),
                 [Spec.outbound env Worker.systemPrompt msg])).
  { rewrite handler_POST by exact Hm.
    rewrite try_block_unfold, Hj, Hu. cbv zeta.
    rewrite Hup, Hok. cbn [negb]. rewrite Hres.
    rewrite (content_html Hnn). cbn [member].
    now rewrite success_body. }
  split; [exact H|]. rewrite H. unfold Spec.html. split.
  - intros s Hs. rewrite Hs. cbn [body_of fst Spec.success body].
    destruct s; reflexivity.
  - intros Hc.
    assert (Hmc : Spec.message_content result = None).
    { unfold Spec.message_content. cbn [Spec.step].
      destruct result; try congruence; rewrite Hc; reflexivity. }
    rewrite Hmc. reflexivity.
Qed.

Lemma C7_witness :
  body_of
    (run (Relay.handler Relay.WorkerFetch (Sample.post Sample.bourbon)
            Sample.env)
       (Sample.answering (Sample.completed Sample.no_choices)))
  = Some (Spec.jsontext "{'html':''}").
Proof.
  refine (proj2 (proj2
    (@C7_upstream_success Relay.WorkerFetch (Sample.post Sample.bourbon)
       Sample.env (Sample.answering (Sample.completed Sample.no_choices))
       Sample.bourbon
       (lit "Name: El Salvador Bourbon" ++ LF ++ lit "Roast profile: Light")
       (Sample.completed Sample.no_choices) Sample.no_choices
       _ _ _ _ _ _ _)) _);
    try reflexivity.
  discriminate.
Defined.

(** C7, as stated, fails when the content is there and is [false]: the
    statement puts the content under [html], the handler puts the
    empty string. *)
Lemma C7_counterexample :
  let up := Sample.answering (Sample.completed Sample.false_content) in
  Spec.message_content Sample.false_content = Some (VBool false)
  /\ body_of (run (Worker.fetch (Sample.post Sample.bourbon) Sample.env) up)
     = Some (Spec.jsontext "{'html':''}")
  /\ body (Spec.success (Spec.html_when_missing Sample.false_content))
     = Spec.jsontext "{'html':false}"
  /\ Spec.jsontext "{'html':''}" <> Spec.jsontext "{'html':false}".
Proof.
  cbv zeta. split; [reflexivity|]. split; [vm_compute; reflexivity|].
  split; [vm_compute; reflexivity|]. vm_compute. discriminate.
Qed.

End UpstreamSuccess.

(** ** Exceptions *)

Section Exceptions.
Import JS Host.

Create HintDb throws.

(** The exceptions that the conversions raise carry a text. *)
Lemma ToString_throw v e : ToString v = Throw e -> message e <> [].
Proof.
  revert e. induction v as [| | | |elts IH|props] using jsvalue_elements_ind;
    intros e; try discriminate.
  - destruct b; discriminate.
  - cbn [ToString].
    match goal with
    | |- context [bind (?f elts) _] => set (elements := f)
    end.
    assert (G : forall err, elements elts = Throw err -> message err <> []).
    { clear e. induction IH as [|x l Hx Hl IHl]; intros err.
      - discriminate.
      - cbn [elements]. fold elements.
        match goal with
        | |- bind ?piece _ = _ -> _ =>
            assert (Hpiece : forall e0, piece = Throw e0 -> message e0 <> [])
              by (destruct x; solve [discriminate | exact Hx]);
            destruct piece as [s|e0]
        end; cbn [bind completion_Monad].
        + destruct (elements l) as [ss|e1];
            [discriminate | intros [= <-]; now apply IHl].
        + intros [= <-]. now apply Hpiece. }
    destruct (elements elts) as [ss|e1] eqn:E1; cbn [bind completion_Monad].
    + discriminate.
    + intros [= <-]. now apply G.
  - cbn [ToString]. destruct (hasOwn props (lit "toString")).
    + intros [= <-]. discriminate.
    + discriminate.
Qed.

Lemma call_toString_throw v e :
  call_toString v = Throw e -> message e <> [].
Proof.
  destruct v as [v|]; [|intros [= <-]; discriminate].
  destruct v as [|b|n|s|elts|props]; cbn [call_toString];
    try apply ToString_throw.
  - intros [= <-]. discriminate.
  - destruct (hasOwn props (lit "toString")).
    + intros [= <-]. discriminate.
    + discriminate.
Qed.

Lemma TemplateToString_throw v e :
  TemplateToString v = Throw e -> message e <> [].
Proof.
  destruct v as [v|]; [apply ToString_throw | discriminate].
Qed.

Lemma Get_throw v key e : Get v key = Throw e -> message e <> [].
Proof.
  destruct v; try discriminate. intros [= <-]. discriminate.
Qed.

#[local] Hint Resolve ToString_throw call_toString_throw
  TemplateToString_throw Get_throw : throws.

Lemma lines_throw parsed e :
  Worker.lines parsed = Throw e -> message e <> [].
Proof.
  unfold Worker.lines. intros H.
  apply for_of_throw in H as (key & acc & _ & H). revert H.
  destruct (Get parsed key) as [present|e0] eqn:Eg; monad;
    [|intros [= <-]; eauto with throws].
  destruct (ToBoolean present); monad; [|discriminate].
  destruct (call_toString present) as [text|e0] eqn:Ec; monad;
    [|intros [= <-]; eauto with throws].
  destruct (negb _); [|discriminate].
  destruct (Get Worker.mapping key) as [label|e0] eqn:Em; monad;
    [|intros [= <-]; eauto with throws].
  destruct (TemplateToString label) as [label'|e0] eqn:El; monad;
    [|intros [= <-]; eauto with throws].
  destruct (TemplateToString present) as [value'|e0] eqn:Ev; monad;
    [|intros [= <-]; eauto with throws].
  discriminate.
Qed.

Lemma userMessage_throw parsed e :
  Worker.userMessage parsed = Throw e -> message e <> [].
Proof.
  unfold Worker.userMessage.
  destruct (Worker.lines parsed) as [ls|e0] eqn:E; monad; [discriminate|].
  intros [= <-]. now apply (lines_throw _ E).
Qed.

(** A value without a string form: the conversion throws and the
    entry point answers 400, calling nothing. *)
Example odd_name_invalid up :
  run (Worker.fetch (Sample.post Sample.odd_name) Sample.env) up
  = (Normal (Spec.invalid_request (lit "body[key].toString is not a function")),
     []).
Proof.
  rewrite Worker_fetch_POST by reflexivity.
  rewrite try_block_unfold. reflexivity.
Qed.

(** The body [null]: reading a property of it throws. *)
Example null_body_invalid up :
  run (Worker.fetch (Sample.post VNull) Sample.env) up
  = (Normal (Spec.invalid_request
               (lit "Cannot read properties of null (reading 'name')")),
     []).
Proof.
  rewrite Worker_fetch_POST by reflexivity.
  rewrite try_block_unfold. reflexivity.
Qed.

(** Every exception of the [try] block carries a text, provided those
    of the platform do. *)
Lemma try_block_throw request env up e log :
  Spec.platform_errors_have_text request up ->
  Worker.try_block request env up [] = (Throw e, log) ->
  message e <> [].
Proof.
  intros (Hreq & Hup & Hres). rewrite try_block_unfold.
  destruct (req_json request) as [parsed|e0] eqn:Ej;
    [|intros [= <- _]; now apply Hreq].
  destruct (Worker.userMessage parsed) as [msg|e0] eqn:Eu;
    [|intros [= <- _]; now apply (userMessage_throw _ Eu)].
  cbv zeta.
  destruct (up _) as [res|e0] eqn:Eup;
    [|intros [= <- _]; now apply (Hup _ _ Eup)].
  destruct (negb (res_ok res)).
  - destruct (res_text res) as [t|e0] eqn:Et; [discriminate|].
    intros [= <- _]. apply (Hres _ _ _ Eup). now left.
  - destruct (res_json res) as [result|e0] eqn:Er.
    + destruct (Worker.content result) as [c|e1] eqn:Ec; [discriminate|].
      intros [= <- _]. now apply (content_throw _ Ec).
    + intros [= <- _]. apply (Hres _ _ _ Eup). now right.
Qed.

End Exceptions.

Section InvalidRequest.
Import JS Host.

(** C5: for a POST request, when [request.json()] fails, or when any
    other exception is raised in the [try] block, the entry point
    answers 400 with the body
    [{"error":"Invalid request","message":<exception text>}], and that
    text is not empty provided the platform's exceptions carry one;
    nothing runs after the failure: the calls made are those made
    before it, none when parsing fails. *)
Theorem C5_exceptions_become_400 p request env up :
  req_method request = lit "POST" ->
  Spec.platform_errors_have_text request up ->
  (forall e, req_json request = Throw e ->
     run (Relay.handler p request env) up
     = (Normal {| status := 400;
                  headers := [ (lit "Content-Type", lit "application/json") ];
                  body := Spec.jsontext "{'error':'Invalid request','message':"
                          ++ QuoteJSONString (message e)
                          ++ Spec.jsontext "}" |}, [])
     /\ message e <> [])
  /\ (forall e log, Relay.attempt p request env up [] = (Throw e, log) ->
     run (Relay.handler p request env) up
     = (Normal {| status := 400;
                  headers := [ (lit "Content-Type", lit "application/json") ];
                  body := Spec.jsontext "{'error':'Invalid request','message':"
                          ++ QuoteJSONString (message e)
                          ++ Spec.jsontext "}" |}, log)
     /\ message e <> []
     /\ (log = []
         \/ exists user,
              log = [Spec.outbound env (Relay.systemPrompt p) user])).
Proof.
  intros Hm Hp.
  assert (G : forall e log,
             Worker.try_block request env up [] = (Throw e, log) ->
             run (Relay.handler p request env) up
             = (Normal (Spec.invalid_request (message e)), log)
             /\ message e <> []
             /\ (log = []
                 \/ exists user,
                      log = [Spec.outbound env Worker.systemPrompt user])).
  { intros e log Ht. split; [|split].
    - rewrite handler_POST by exact Hm. now rewrite Ht.
    - exact (try_block_throw _ Hp Ht).
    - destruct (try_block_log _ _ _ Ht) as [->|(parsed & user & _ & _ & ->)];
        [now left | right; now exists user]. }
  split.
  - intros e Hj.
    assert (Ht : Worker.try_block request env up [] = (Throw e, []))
      by (rewrite try_block_unfold, Hj; reflexivity).
    destruct (G _ _ Ht) as (H1 & H2 & _). now split.
  - intros e log. rewrite attempt_eq, systemPrompt_eq. apply G.
Qed.

Lemma malformed_platform_errors :
  Spec.platform_errors_have_text Sample.malformed
    (Sample.answering Sample.rate_limited).
Proof.
  split; [|split].
  - intros e [= <-]. discriminate.
  - intros call e. discriminate.
  - intros call res e [= <-] [[= <-]|[= <-]]; discriminate.
Qed.

Lemma C5_witness :
  run (Relay.handler Relay.WorkerFetch Sample.malformed Sample.env)
      (Sample.answering Sample.rate_limited)
  = (Normal {| status := 400;
               headers := [ (lit "Content-Type", lit "application/json") ];
               body := Spec.jsontext "{'error':'Invalid request','message':"
                       ++ QuoteJSONString
                            (lit "Unexpected token 'h', ... is not valid JSON")
                       ++ Spec.jsontext "}" |}, [])
  /\ lit "Unexpected token 'h', ... is not valid JSON" <> [].
Proof.
  apply (proj1 (@C5_exceptions_become_400 Relay.WorkerFetch Sample.malformed
                  Sample.env (Sample.answering Sample.rate_limited)
                  eq_refl malformed_platform_errors)
           {| name := lit "SyntaxError";
              message := lit "Unexpected token 'h', ... is not valid JSON" |}).
  reflexivity.
Defined.

End InvalidRequest.

(** ** The lines and the presence filter *)

Section Lines.
Import JS Host.

(** A line tells its key: no two labels agree up to the colon. *)
Lemma line_label_inj key key' value value' :
  In key Spec.keys -> In key' Spec.keys ->
  Spec.label key ++ lit ": " ++ value
  = Spec.label key' ++ lit ": " ++ value' ->
  key = key'.
Proof.
  intros Hk Hk'. revert value value'. revert key' Hk'. revert key Hk.
  refine (keys_cases _ _ _ _ _ _ _ _ _);
    refine (keys_cases _ _ _ _ _ _ _ _ _); intros value value' H;
    first [ reflexivity | vm_compute in H; discriminate H ].
Qed.

Lemma rendered_kept parsed key l :
  In l (Spec.rendered parsed key) ->
  Spec.kept parsed key = true
  /\ exists v, Spec.field parsed key = Some v /\ l = Spec.line key v.
Proof.
  unfold Spec.rendered, Spec.kept.
  destruct (Spec.field parsed key) as [v|]; [|intros []].
  destruct (Spec.passes v); [|intros []].
  intros [<-|[]]. split; [reflexivity|]. now exists v.
Qed.

Lemma kept_rendered parsed key v :
  In key Spec.keys -> Spec.field parsed key = Some v ->
  Spec.kept parsed key = true ->
  In (Spec.line key v) (Spec.rendered_lines parsed).
Proof.
  intros Hk Hf Hp. unfold Spec.rendered_lines.
  apply in_flat_map. exists key. split; [exact Hk|].
  unfold Spec.rendered, Spec.kept in *. rewrite Hf in *. rewrite Hp.
  now left.
Qed.

Lemma omitted_iff parsed key :
  In key Spec.keys ->
  Spec.omitted (Spec.rendered_lines parsed) key
  <-> Spec.kept parsed key = false.
Proof.
  intros Hk. split.
  - intros Ho. destruct (Spec.kept parsed key) eqn:Hp; [|reflexivity].
    exfalso. unfold Spec.kept in Hp.
    destruct (Spec.field parsed key) as [v|] eqn:Hf; [|discriminate].
    apply (Ho (Spec.text v)).
    apply (kept_rendered _ Hk Hf). unfold Spec.kept. now rewrite Hf.
  - intros Hp value Hin. unfold Spec.rendered_lines in Hin.
    apply in_flat_map in Hin as (key' & Hk' & Hin).
    apply rendered_kept in Hin as (Hp' & v & _ & Hl).
    apply (line_label_inj _ _ Hk Hk') in Hl. subst key'. congruence.
Qed.

(** The filter of the loop, by the kind of the value. *)
Lemma kept_false_iff parsed key :
  Spec.kept parsed key = false
  <-> Spec.blank (Spec.field parsed key) = true
      \/ Spec.false_or_zero (Spec.field parsed key) = true.
Proof.
  unfold Spec.kept.
  destruct (Spec.field parsed key) as [v|]; [|cbn; tauto].
  unfold Spec.passes, Spec.blank, Spec.false_or_zero.
  destruct v as [|b|n|s|elts|props]; cbn [ToBoolean andb];
    try (destruct (jsstring_eqb (trim (Spec.text _)) []);
         cbn [negb andb]; intuition discriminate).
  - cbn; tauto.
  - destruct b; cbn [andb];
      destruct (jsstring_eqb (trim (Spec.text _)) []);
      cbn [negb]; intuition discriminate.
  - destruct (Number_isFalsy n); cbn [negb andb];
      destruct (jsstring_eqb (trim (Spec.text _)) []);
      cbn [negb]; intuition discriminate.
  - destruct s as [|c s]; [cbn; tauto|].
    destruct (jsstring_eqb (trim (Spec.text _)) []);
      cbn [negb andb]; intuition discriminate.
Qed.

End Lines.

Section PresenceFilter.
Import JS Host.

(** C1: for every JSON object body, the user message that an entry
    point builds is the newline-join of the lines ["<Label>: <value>"]
    of exactly the recognized keys whose values pass the presence
    filter of the loop, in the order name, roast, origin, process,
    varietal, masl, roastDate, brewProfile and with the labels Name,
    Roast profile, Origin, Processing method, Varietal, MASL, Roast
    date, Brew profile; it is built whenever the recognized values have
    a string form; it does not depend on the order of the members of
    the body; and for [{ "name": "El Salvador Bourbon", "roast":
    "Light" }] it is ["Name: El Salvador Bourbon\nRoast profile:
    Light"]. *)
Theorem C1_user_message_in_fixed_order p :
  (forall props msg,
     Relay.userMessage p (VObject props) = Normal msg ->
     msg = join
             (flat_map
                (fun key =>
                   match own_property props key with
                   | Some v =>
                       if Spec.passes v
                       then [Spec.label key ++ lit ": " ++ Spec.text v]
                       else []
                   | None => []
                   end)
                [ lit "name"; lit "roast"; lit "origin"; lit "process";
                  lit "varietal"; lit "masl"; lit "roastDate";
                  lit "brewProfile" ])
             LF)
  /\ (forall props,
        Spec.convertible (VObject props) ->
        exists msg, Relay.userMessage p (VObject props) = Normal msg)
  /\ (forall props props',
        NoDup (map fst props) -> Permutation props props' ->
        Relay.userMessage p (VObject props')
        = Relay.userMessage p (VObject props))
  /\ map Spec.label
       [ lit "name"; lit "roast"; lit "origin"; lit "process";
         lit "varietal"; lit "masl"; lit "roastDate"; lit "brewProfile" ]
     = [ lit "Name"; lit "Roast profile"; lit "Origin";
         lit "Processing method"; lit "Varietal"; lit "MASL";
         lit "Roast date"; lit "Brew profile" ]
  /\ Relay.userMessage p Sample.bourbon
     = Normal (lit "Name: El Salvador Bourbon" ++ LF
               ++ lit "Roast profile: Light")
  /\ Relay.userMessage p Sample.bourbon_swapped
     = Relay.userMessage p Sample.bourbon.
Proof.
  rewrite userMessage_eq. repeat split.
  - intros props msg H.
    assert (Hl : exists ls, Worker.lines (VObject props) = Normal ls).
    { unfold Worker.userMessage in H.
      destruct (Worker.lines (VObject props)) as [ls|e];
        [now exists ls | discriminate H]. }
    destruct Hl as (ls & Hl).
    destruct (Worker_lines_normal _ Hl) as (Hb & Hc).
    rewrite (Worker_userMessage_spec Hb Hc) in H.
    now injection H as <-.
  - intros props Hc. eexists.
    apply Worker_userMessage_spec; [discriminate | exact Hc].
  - intros props props' Hnd Hp. unfold Worker.userMessage.
    rewrite (@Worker_lines_fields (VObject props) (VObject props'));
      [reflexivity|].
    intros key. cbn [Get]. f_equal.
    now apply own_property_Permutation.
Qed.

Lemma bourbon_convertible : Spec.convertible Sample.bourbon_swapped.
Proof.
  intros key v Hk. revert v. revert key Hk.
  refine (keys_cases _ _ _ _ _ _ _ _ _); intros v H; vm_compute in H;
    first [ discriminate H | injection H as <-; reflexivity ].
Qed.

Lemma C1_witness :
  exists msg,
    Relay.userMessage Relay.PagesOnRequest Sample.bourbon_swapped
    = Normal msg.
Proof.
  exact (proj1 (proj2 (C1_user_message_in_fixed_order Relay.PagesOnRequest))
           [ (lit "roast", VString (lit "Light"));
             (lit "name", VString (lit "El Salvador Bourbon")) ]
           bourbon_convertible).
Defined.

(** C2, as amended: whenever the lines are built, the value of a
    recognized key is left out of them if and only if it is absent,
    null, the Boolean false, a Number that is zero or NaN, or a value
    whose string form is empty or whitespace-only after trimming; every
    other value is rendered as the line of its key; and
    [{ "name": "  " }] renders no line. *)
Theorem C2_excluded_iff_blank_or_falsy p :
  (forall parsed key ls,
     In key Spec.keys ->
     Relay.lines p parsed = Normal ls ->
     Relay.userMessage p parsed = Normal (join ls LF)
     /\ (Spec.omitted ls key
         <-> Spec.blank (Spec.field parsed key) = true
             \/ Spec.false_or_zero (Spec.field parsed key) = true)
     /\ (Spec.blank (Spec.field parsed key) = false ->
         Spec.false_or_zero (Spec.field parsed key) = false ->
         exists v,
           Spec.field parsed key = Some v
           /\ In (Spec.label key ++ lit ": " ++ Spec.text v) ls))
  /\ Relay.lines p Sample.blank_name = Normal [].
Proof.
  rewrite lines_eq, userMessage_eq. split; [|reflexivity].
  intros parsed key ls Hk Hl.
  destruct (Worker_lines_normal _ Hl) as (Hn & Hc).
  assert (E : ls = Spec.rendered_lines parsed)
    by (rewrite (Worker_lines_spec Hn Hc) in Hl; now injection Hl).
  subst ls.
  split; [now apply Worker_userMessage_spec|].
  split.
  - rewrite (omitted_iff _ Hk). apply kept_false_iff.
  - intros Hb Hz.
    assert (Hp : Spec.kept parsed key = true).
    { destruct (Spec.kept parsed key) eqn:E; [reflexivity|].
      apply kept_false_iff in E as [E|E]; congruence. }
    destruct (Spec.field parsed key) as [v|] eqn:Hf; [|discriminate Hb].
    exists v. split; [reflexivity|].
    exact (kept_rendered _ Hk Hf Hp).
Qed.

Lemma C2_witness :
  Spec.omitted
    [ lit "Name: El Salvador Bourbon"; lit "Roast profile: Light" ]
    (lit "masl").
Proof.
  apply (proj1 (C2_excluded_iff_blank_or_falsy Relay.WorkerFetch)
           Sample.bourbon_swapped (lit "masl")
           [ lit "Name: El Salvador Bourbon"; lit "Roast profile: Light" ]).
  - vm_compute. tauto.
  - reflexivity.
  - left. reflexivity.
Defined.

(** C2, as stated, fails for [{ "masl": 0 }]: the value is neither
    absent, nor null, nor whitespace-only, and no line is rendered. *)
Lemma C2_counterexample :
  Worker.lines Sample.sea_level = Normal []
  /\ Spec.field Sample.sea_level (lit "masl")
     = Some (VNumber (S754_zero false))
  /\ ~ (Spec.omitted [] (lit "masl")
        <-> Spec.blank (Spec.field Sample.sea_level (lit "masl")) = true).
Proof.
  split; [reflexivity|]. split; [reflexivity|].
  intros [H _].
  assert (E : Spec.blank (Spec.field Sample.sea_level (lit "masl")) = true)
    by (apply H; intros value []).
  revert E. vm_compute. discriminate.
Qed.

End PresenceFilter.

(** * Further properties *)

(** ** What an entry point runs *)

Section Runs.
Import JS Host.

(** The run of an entry point: the method check, where there is one,
    then the [try] statement. *)
Lemma handler_run p request env up :
  run (Relay.handler p request env) up
  = if (Edge.checks_method p
        && negb (jsstring_eqb (req_method request) (lit "POST")))%bool
    then (Normal Spec.method_not_allowed, [])
    else match Worker.try_block request env up [] with
         | (Throw err, log) =>
             (Normal (Spec.invalid_request (message err)), log)
         | r => r
         end.
Proof.
  destruct (jsstring_eqb (req_method request) (lit "POST")) eqn:E.
  - rewrite andb_false_r. apply handler_POST. now apply jsstring_eqb_eq.
  - apply jsstring_eqb_neq in E.
    destruct p; cbn [Relay.handler Edge.checks_method andb negb].
    + now apply Worker_fetch_other.
    + rewrite onRequest_eq. now apply Worker_fetch_other.
    + apply onRequestPost_run.
Qed.

(** The loop reads the body through its recognized keys only. *)
Lemma Worker_lines_recognized body body' :
  (forall key, In key Spec.keys -> Get body' key = Get body key) ->
  Worker.lines body' = Worker.lines body.
Proof.
  intros H. unfold Worker.lines.
  change (Object_keys Worker.mapping) with Spec.keys.
  apply for_of_ext. intros key acc Hk.
  now rewrite !(H key Hk).
Qed.

End Runs.

Section Bodies.
Import JS Host.

(** X1: members of the body that the mapping does not list change
    nothing: two requests of the same method whose parsed object bodies
    hold the same values under the eight recognized keys get the same
    user message, the same response and the same outbound call. *)
Theorem unrecognized_members_ignored p method props props' env up :
  (forall key, In key Spec.keys ->
     own_property props' key = own_property props key) ->
  Relay.userMessage p (VObject props') = Relay.userMessage p (VObject props)
  /\ run (Relay.handler p {| req_method := method;
                             req_json := Normal (VObject props') |} env) up
     = run (Relay.handler p {| req_method := method;
                               req_json := Normal (VObject props) |} env) up.
Proof.
  intros H.
  assert (E : Worker.userMessage (VObject props')
              = Worker.userMessage (VObject props)).
  { unfold Worker.userMessage.
    rewrite (@Worker_lines_recognized (VObject props) (VObject props'));
      [reflexivity|].
    intros key Hk. cbn [Get]. now rewrite (H key Hk). }
  rewrite userMessage_eq. split; [exact E|].
  rewrite !handler_run. cbn [req_method].
  rewrite !try_block_unfold. cbn [req_json]. now rewrite E.
Qed.

Lemma unrecognized_members_ignored_witness :
  Relay.userMessage Relay.WorkerFetch (VObject Edge.with_notes)
  = Relay.userMessage Relay.WorkerFetch (VObject Edge.without_notes).
Proof.
  refine (proj1 (@unrecognized_members_ignored Relay.WorkerFetch (lit "POST")
                   Edge.without_notes Edge.with_notes Sample.env
                   (Sample.answering Sample.rate_limited) _)).
  refine (keys_cases _ _ _ _ _ _ _ _ _); reflexivity.
Defined.

(** A body that is neither null nor an object holds nothing under a
    recognized key. *)
Lemma scalar_all_blank parsed :
  match parsed with VNull | VObject _ => False | _ => True end ->
  Spec.all_blank parsed.
Proof.
  intros Hp. refine (keys_cases _ _ _ _ _ _ _ _ _);
    left; destruct parsed; try destruct Hp; reflexivity.
Qed.

(** What the run of a POST request logs once the message is built. *)
Lemma log_when_built p request env up parsed msg :
  req_method request = lit "POST" ->
  req_json request = Normal parsed ->
  Worker.userMessage parsed = Normal msg ->
  snd (run (Relay.handler p request env) up)
  = [Spec.outbound env Worker.systemPrompt msg].
Proof.
  intros Hm Hj Hu. rewrite handler_POST by exact Hm.
  rewrite try_block_unfold, Hj, Hu. cbv zeta.
  destruct (up _) as [res|e]; [|reflexivity].
  destruct (negb (res_ok res)).
  - destruct (res_text res); reflexivity.
  - destruct (res_json res) as [result|e]; [|reflexivity].
    destruct (Worker.content result); reflexivity.
Qed.

(** X2: a POST request whose body parses to a Boolean, a Number, a
    String or an Array is not refused: the user message is empty and the
    one outbound call carries it. *)
Theorem non_object_body_is_relayed p request env up parsed :
  req_method request = lit "POST" ->
  req_json request = Normal parsed ->
  match parsed with VNull | VObject _ => False | _ => True end ->
  Relay.userMessage p parsed = Normal []
  /\ snd (run (Relay.handler p request env) up)
     = [Spec.outbound env (Relay.systemPrompt p) []].
Proof.
  intros Hm Hj Hp. rewrite userMessage_eq, systemPrompt_eq.
  pose proof (@scalar_all_blank parsed Hp) as Hb.
  assert (Hu : Worker.userMessage parsed = Normal []).
  { rewrite (Worker_userMessage_spec (all_blank_not_null Hb)
               (all_blank_convertible Hb)).
    unfold Spec.user_message. now rewrite (all_blank_no_lines Hb). }
  split; [exact Hu|]. now apply (@log_when_built p request env up parsed []).
Qed.

Lemma non_object_body_is_relayed_witness :
  Relay.userMessage Relay.PagesOnRequest
    (VArray [VString (lit "name"); VString (lit "Kenya")]) = Normal [].
Proof.
  refine (proj1 (@non_object_body_is_relayed Relay.PagesOnRequest
             (Sample.post (VArray [VString (lit "name"); VString (lit "Kenya")]))
             Sample.env (Sample.answering Sample.rate_limited)
             (VArray [VString (lit "name"); VString (lit "Kenya")])
             eq_refl eq_refl I)).
Defined.

(** X3: a POST request whose body parses to null is answered 400 with
    the text of the TypeError that reading [name] from null raises, and
    the upstream is not called. *)
Theorem null_body_is_refused p request env up :
  req_method request = lit "POST" ->
  req_json request = Normal VNull ->
  run (Relay.handler p request env) up
  = (Normal {| status := 400;
               headers := [ (lit "Content-Type", lit "application/json") ];
               body := Spec.jsontext "{'error':'Invalid request','message':"
                       ++ QuoteJSONString
                            (lit "Cannot read properties of null (reading 'name')")
                       ++ Spec.jsontext "}" |}, []).
Proof.
  intros Hm Hj. rewrite handler_POST by exact Hm.
  rewrite try_block_unfold, Hj. reflexivity.
Qed.

Lemma null_body_is_refused_witness :
  snd (run (Relay.handler Relay.PagesOnRequestPost (Sample.post VNull)
              Sample.env) Edge.unreachable) = [].
Proof.
  rewrite (@null_body_is_refused Relay.PagesOnRequestPost (Sample.post VNull)
             Sample.env Edge.unreachable eq_refl eq_refl).
  reflexivity.
Defined.

(** X4: when a recognized key of the body of a POST request holds a
    value that has no string form (an object with a member named
    [toString], or an Array that holds one), the request is answered 400
    with the text of the exception, which is not empty, and the upstream
    is not called. *)
Theorem value_without_string_form_is_refused
    p request env up parsed key v :
  req_method request = lit "POST" ->
  req_json request = Normal parsed ->
  In key Spec.keys ->
  Spec.field parsed key = Some v ->
  Spec.converts v = false ->
  exists e,
    Relay.userMessage p parsed = Throw e
    /\ message e <> []
    /\ run (Relay.handler p request env) up
       = (Normal {| status := 400;
                    headers := [ (lit "Content-Type", lit "application/json") ];
                    body := Spec.jsontext
                              "{'error':'Invalid request','message':"
                            ++ QuoteJSONString (message e)
                            ++ Spec.jsontext "}" |}, []).
Proof.
  intros Hm Hj Hk Hf Hc. rewrite userMessage_eq.
  destruct (Worker.userMessage parsed) as [msg|e] eqn:Hu.
  - exfalso. unfold Worker.userMessage in Hu.
    destruct (Worker.lines parsed) as [ls|e] eqn:Hl; [|discriminate Hu].
    destruct (Worker_lines_normal _ Hl) as (_ & Hconv).
    rewrite (Hconv key v Hk Hf) in Hc. discriminate Hc.
  - exists e. split; [reflexivity|]. split; [exact (userMessage_throw _ Hu)|].
    rewrite handler_POST by exact Hm.
    rewrite try_block_unfold, Hj, Hu. reflexivity.
Qed.

Lemma value_without_string_form_is_refused_witness :
  exists e,
    Relay.userMessage Relay.WorkerFetch Sample.odd_name = Throw e
    /\ message e <> [].
Proof.
  destruct (@value_without_string_form_is_refused Relay.WorkerFetch
              (Sample.post Sample.odd_name) Sample.env Edge.unreachable
              Sample.odd_name (lit "name")
              (VObject [ (lit "toString", VNull) ])
              eq_refl eq_refl (or_introl eq_refl) eq_refl eq_refl)
    as (e & H1 & H2 & _).
  exists e. split; [exact H1 | exact H2].
Defined.

End Bodies.

(** ** Trimming and printing *)

Section Trimming.
Import JS.

Lemma trimStart_nil_iff s :
  trimStart s = [] <-> forallb isWhiteSpace s = true.
Proof.
  induction s as [|c s IH]; simpl; [tauto|].
  destruct (isWhiteSpace c); simpl; [exact IH|].
  split; discriminate.
Qed.

Lemma trimStart_suffix s : exists l, s = l ++ trimStart s.
Proof.
  induction s as [|c s (l & IH)]; simpl; [now exists []|].
  destruct (isWhiteSpace c); [|now exists []].
  exists (c :: l). simpl. now rewrite <- IH.
Qed.

Lemma trimStart_head s c r :
  trimStart s = c :: r -> isWhiteSpace c = false.
Proof.
  induction s as [|d s IH]; simpl; [discriminate|].
  destruct (isWhiteSpace d) eqn:E; [exact IH|].
  now intros [= <- _].
Qed.

Lemma forallb_rev (A : Type) (f : A -> bool) l :
  forallb f (rev l) = forallb f l.
Proof.
  induction l as [|x l IH]; [reflexivity|].
  simpl. rewrite forallb_app, IH. simpl.
  now rewrite andb_true_r, andb_comm.
Qed.

(** [trim] leaves nothing exactly of the strings made of white space. *)
Lemma trim_nil_iff s : trim s = [] <-> forallb isWhiteSpace s = true.
Proof.
  unfold trim, trimEnd. split.
  - intros H. apply (f_equal (@rev N)) in H.
    rewrite rev_involutive in H. simpl in H.
    apply trimStart_nil_iff in H. rewrite forallb_rev in H.
    destruct (trimStart s) as [|c r] eqn:E; [now apply trimStart_nil_iff|].
    apply trimStart_head in E. simpl in H. now rewrite E in H.
  - intros H. apply trimStart_nil_iff in H. now rewrite H.
Qed.

Lemma inked_trim s : forallb isWhiteSpace s = false -> trim s <> [].
Proof.
  intros H E. apply trim_nil_iff in E. congruence.
Qed.

Lemma digits_inked p : forallb isWhiteSpace (decimal_digits p) = false.
Proof.
  unfold decimal_digits.
  pose proof (Unsigned.to_uint_nonnil p) as H.
  destruct (Pos.to_uint p); [now destruct H | reflexivity ..].
Qed.

Lemma format_decimal_inked s q :
  forallb isWhiteSpace (format_decimal s q) = false.
Proof.
  unfold format_decimal.
  pose proof (digits_inked s) as Hd.
  set (ds := decimal_digits s) in *.
  destruct (_ && _)%bool.
  - destruct (_ <=? _)%Z; [|destruct (_ <? _)%Z].
    + now rewrite forallb_app, Hd.
    + rewrite !forallb_app. cbn [lit forallb map list_ascii_of_string].
      now rewrite andb_false_r.
    + reflexivity.
  - rewrite !forallb_app.
    replace (forallb isWhiteSpace (lit "e")) with false by reflexivity.
    now rewrite andb_false_r.
Qed.

(** The decimal form of a Number is never blank. *)
Lemma Number_toString_inked n :
  forallb isWhiteSpace (Number_toString n) = false.
Proof.
  destruct n as [s|s| |s m e]; try reflexivity.
  - destruct s; reflexivity.
  - assert (H : forallb isWhiteSpace (toString_positive m e) = false).
    { unfold toString_positive.
      destruct (rounding_interval m e) as [[[[lo V] hi] closed] g].
      destruct (shortest _ _ _) as [d q]. apply format_decimal_inked. }
    destruct s; [|exact H].
    cbn [Number_toString]. now rewrite forallb_app.
Qed.

End Trimming.

(** ** Values by kind *)

Section Kinds.
Import JS Host.

Lemma lines_are_rendered parsed ls :
  Worker.lines parsed = Normal ls -> ls = Spec.rendered_lines parsed.
Proof.
  intros Hl. destruct (Worker_lines_normal _ Hl) as (Hn & Hc).
  rewrite (Worker_lines_spec Hn Hc) in Hl. now injection Hl.
Qed.

(** X5: a string under a recognized key is left out exactly when all
    its code units are white space (the empty string included);
    otherwise its line carries it as it is, the surrounding white space
    included. *)
Theorem string_value_is_rendered_untrimmed p parsed key s ls :
  In key Spec.keys ->
  Spec.field parsed key = Some (VString s) ->
  Relay.lines p parsed = Normal ls ->
  (forallb isWhiteSpace s = true -> Spec.omitted ls key)
  /\ (forallb isWhiteSpace s = false ->
      In (Spec.label key ++ lit ": " ++ s) ls).
Proof.
  rewrite lines_eq. intros Hk Hf Hl.
  rewrite (lines_are_rendered _ Hl). split; intros Hs.
  - apply (omitted_iff _ Hk). unfold Spec.kept. rewrite Hf.
    unfold Spec.passes, Spec.text. cbn [ToString].
    apply trim_nil_iff in Hs. rewrite Hs. apply andb_false_r.
  - apply (kept_rendered _ Hk Hf). unfold Spec.kept. rewrite Hf.
    unfold Spec.passes, Spec.text. cbn [ToString ToBoolean].
    destruct s as [|c s]; [discriminate Hs|].
    apply inked_trim in Hs. apply jsstring_eqb_neq in Hs. now rewrite Hs.
Qed.

Lemma string_value_is_rendered_untrimmed_witness :
  In (lit "Name:  Kenya ") [ lit "Name:  Kenya " ].
Proof.
  refine (proj2 (@string_value_is_rendered_untrimmed Relay.WorkerFetch
                   Edge.padded_name (lit "name") (lit " Kenya ")
                   [ lit "Name:  Kenya " ] _ eq_refl eq_refl) eq_refl).
  vm_compute. tauto.
Defined.

(** X6: a Number under a recognized key is rendered by its decimal
    form unless it is zero or NaN: its string form is never blank. *)
Theorem nonzero_number_is_rendered p parsed key n ls :
  In key Spec.keys ->
  Spec.field parsed key = Some (VNumber n) ->
  Number_isFalsy n = false ->
  Relay.lines p parsed = Normal ls ->
  In (Spec.label key ++ lit ": " ++ Number_toString n) ls.
Proof.
  rewrite lines_eq. intros Hk Hf Hn Hl.
  rewrite (lines_are_rendered _ Hl).
  apply (kept_rendered _ Hk Hf). unfold Spec.kept. rewrite Hf.
  unfold Spec.passes, Spec.text. cbn [ToString ToBoolean]. rewrite Hn.
  pose proof (inked_trim _ (Number_toString_inked n)) as Hs.
  apply jsstring_eqb_neq in Hs. now rewrite Hs.
Qed.

Lemma nonzero_number_is_rendered_witness :
  In (lit "MASL: 1200") [ lit "MASL: 1200" ].
Proof.
  refine (@nonzero_number_is_rendered Relay.PagesOnRequest Edge.altitude
            (lit "masl") (S754_finite false 1200 0) [ lit "MASL: 1200" ]
            _ eq_refl eq_refl eq_refl).
  vm_compute. tauto.
Defined.

(** X7: whenever the lines are built, the Boolean true under a
    recognized key is rendered as [true], an object as
    [[object Object]], and an empty Array is left out. *)
Theorem other_kinds_are_rendered p parsed key ls :
  In key Spec.keys ->
  Relay.lines p parsed = Normal ls ->
  (Spec.field parsed key = Some (VBool true) ->
   In (Spec.label key ++ lit ": true") ls)
  /\ (forall members, Spec.field parsed key = Some (VObject members) ->
      In (Spec.label key ++ lit ": [object Object]") ls)
  /\ (Spec.field parsed key = Some (VArray []) -> Spec.omitted ls key).
Proof.
  rewrite lines_eq. intros Hk Hl.
  destruct (Worker_lines_normal _ Hl) as (_ & Hc).
  rewrite (lines_are_rendered _ Hl). repeat split.
  - intros Hf. apply (kept_rendered _ Hk Hf).
    unfold Spec.kept. now rewrite Hf.
  - intros members Hf.
    pose proof (Hc key _ Hk Hf) as Hv. unfold Spec.converts in Hv.
    cbn [ToString] in Hv.
    destruct (hasOwn members (lit "toString")) eqn:Ho; [discriminate Hv|].
    assert (Ht : Spec.text (VObject members) = lit "[object Object]")
      by (unfold Spec.text; cbn [ToString]; now rewrite Ho).
    pose proof (@kept_rendered parsed key (VObject members) Hk Hf) as Hin.
    unfold Spec.line in Hin. rewrite Ht in Hin. apply Hin.
    unfold Spec.kept. rewrite Hf. unfold Spec.passes. rewrite Ht.
    reflexivity.
  - intros Hf. apply (omitted_iff _ Hk). unfold Spec.kept. now rewrite Hf.
Qed.

Lemma other_kinds_are_rendered_witness :
  In (lit "Varietal: [object Object]")
     [ lit "Roast profile: true"; lit "Varietal: [object Object]" ].
Proof.
  refine (proj1 (proj2 (@other_kinds_are_rendered Relay.WorkerFetch
            Edge.mixed (lit "varietal")
            [ lit "Roast profile: true"; lit "Varietal: [object Object]" ]
            _ eq_refl)) [] eq_refl).
  vm_compute. tauto.
Defined.

Lemma join_nil_iff ls :
  Forall (fun l => l <> []) ls -> (join ls LF = [] <-> ls = []).
Proof.
  intros H. split; [|now intros ->].
  destruct H as [|x ls Hx _]; [reflexivity|].
  simpl. destruct ls; [now intros ->|].
  destruct x; [now destruct Hx | discriminate].
Qed.

(** X8: the user message is the empty string exactly when the value of
    every recognized key is absent, null, false, zero, or blank in its
    string form. *)
Theorem message_empty_iff_nothing_kept p parsed msg :
  Relay.userMessage p parsed = Normal msg ->
  (msg = []
   <-> forall key, In key Spec.keys ->
         Spec.blank (Spec.field parsed key) = true
         \/ Spec.false_or_zero (Spec.field parsed key) = true).
Proof.
  rewrite userMessage_eq. unfold Worker.userMessage. intros H.
  destruct (Worker.lines parsed) as [ls|e] eqn:Hl; [|discriminate H].
  cbn [bind ret completion_Monad] in H. injection H as <-.
  rewrite (lines_are_rendered _ Hl).
  assert (Hne : Forall (fun l => l <> []) (Spec.rendered_lines parsed)).
  { apply Forall_forall. intros l Hin.
    apply in_flat_map in Hin as (key & Hk & Hin).
    apply rendered_kept in Hin as (_ & v & _ & ->).
    revert key Hk. refine (keys_cases _ _ _ _ _ _ _ _ _); discriminate. }
  rewrite (join_nil_iff Hne). split.
  - intros E key Hk. apply kept_false_iff. apply (omitted_iff _ Hk).
    rewrite E. intros value [].
  - intros H.
    destruct (Spec.rendered_lines parsed) as [|l ls'] eqn:E; [reflexivity|].
    exfalso.
    assert (Hin : In l (Spec.rendered_lines parsed))
      by (rewrite E; now left).
    unfold Spec.rendered_lines in Hin.
    apply in_flat_map in Hin as (key & Hk & Hin).
    apply rendered_kept in Hin as (Hkept & _).
    pose proof (proj2 (kept_false_iff parsed key) (H key Hk)). congruence.
Qed.

Lemma message_empty_iff_nothing_kept_witness :
  ([] : jsstring) = [] <->
  (forall key, In key Spec.keys ->
     Spec.blank (Spec.field Sample.sea_level key) = true
     \/ Spec.false_or_zero (Spec.field Sample.sea_level key) = true).
Proof.
  exact (@message_empty_iff_nothing_kept Relay.WorkerFetch Sample.sea_level
           [] eq_refl).
Defined.

End Kinds.

(** ** The upstream call and what comes back *)

Section Upstream.
Import JS Host.

(** The log of a run: empty, or the one call that carries the message. *)
Lemma handler_log p request env up :
  snd (run (Relay.handler p request env) up) = []
  \/ exists parsed msg,
       req_json request = Normal parsed
       /\ Worker.userMessage parsed = Normal msg
       /\ snd (run (Relay.handler p request env) up)
          = [Spec.outbound env Worker.systemPrompt msg].
Proof.
  rewrite handler_run. destruct (_ && _)%bool; [now left|].
  destruct (Worker.try_block request env up []) as [r log] eqn:Ht.
  destruct (try_block_log _ _ _ Ht) as [->|(parsed & msg & Hj & Hu & ->)].
  - left. now destruct r.
  - right. exists parsed, msg. now destruct r.
Qed.

(** X9: every outbound call is a POST to the chat-completions address
    with exactly two headers, the JSON content type and
    [Authorization: Bearer <key>], where a key that is not configured
    reads [undefined]. *)
Theorem outbound_call_shape p request env up call :
  In call (snd (run (Relay.handler p request env) up)) ->
  call_url call = lit "https://api.openai.com/v1/chat/completions"
  /\ call_method call = lit "POST"
  /\ call_headers call
     = [ (lit "Content-Type", lit "application/json");
         (lit "Authorization",
          lit "Bearer " ++ match OPENAI_API_KEY env with
                           | Some key => key
                           | None => lit "undefined"
                           end) ].
Proof.
  intros Hin.
  destruct (handler_log p request env up) as [E|(parsed & msg & _ & _ & E)];
    rewrite E in Hin; [destruct Hin|].
  destruct Hin as [<-|[]]. repeat split.
Qed.

Lemma outbound_call_shape_witness :
  call_headers (Spec.outbound Edge.no_key Worker.systemPrompt [])
  = [ (lit "Content-Type", lit "application/json");
      (lit "Authorization", lit "Bearer undefined") ].
Proof.
  refine (proj2 (proj2 (@outbound_call_shape Relay.WorkerFetch
            (Sample.post Sample.blank_name) Edge.no_key Edge.unreachable
            (Spec.outbound Edge.no_key Worker.systemPrompt []) _))).
  rewrite (@log_when_built Relay.WorkerFetch (Sample.post Sample.blank_name)
             Edge.no_key Edge.unreachable Sample.blank_name []
             eq_refl eq_refl eq_refl).
  left. reflexivity.
Defined.

(** X10: once the user message of a POST request is built, the entry
    point calls the upstream exactly once, whatever the upstream does
    (answer, fail, or reject): there is no second attempt; and when the
    body does not parse or the message cannot be built it does not call
    at all. *)
Theorem one_call_and_no_retry p request env up :
  req_method request = lit "POST" ->
  (forall parsed msg,
     req_json request = Normal parsed ->
     Relay.userMessage p parsed = Normal msg ->
     snd (run (Relay.handler p request env) up)
     = [Spec.outbound env (Relay.systemPrompt p) msg])
  /\ ((forall parsed msg,
         req_json request = Normal parsed ->
         Relay.userMessage p parsed <> Normal msg) ->
      snd (run (Relay.handler p request env) up) = []).
Proof.
  rewrite userMessage_eq, systemPrompt_eq. intros Hm. split.
  - intros parsed msg Hj Hu. now apply log_when_built with (parsed := parsed).
  - intros H.
    destruct (handler_log p request env up)
      as [E|(parsed & msg & Hj & Hu & _)]; [exact E|].
    now destruct (H parsed msg Hj).
Qed.

Lemma one_call_and_no_retry_witness :
  snd (run (Relay.handler Relay.WorkerFetch (Sample.post Sample.blank_name)
              Sample.env) Edge.unreachable)
  = [Spec.outbound Sample.env (Relay.systemPrompt Relay.WorkerFetch) []].
Proof.
  exact (proj1 (@one_call_and_no_retry Relay.WorkerFetch
                  (Sample.post Sample.blank_name) Sample.env
                  Edge.unreachable eq_refl)
           Sample.blank_name [] eq_refl eq_refl).
Defined.

(** How the [try] block comes to return a response. *)
Lemma try_block_normal request env up r log :
  Worker.try_block request env up [] = (Normal r, log) ->
  exists call res,
    log = [call] /\ up call = Normal res
    /\ ((res_ok res = false /\ status r = 500%Z
         /\ exists details, res_text res = Normal details)
        \/ (res_ok res = true /\ status r = 200%Z)).
Proof.
  rewrite try_block_unfold.
  destruct (req_json request) as [parsed|e]; [|discriminate].
  destruct (Worker.userMessage parsed) as [msg|e]; [|discriminate].
  cbv zeta. destruct (up _) as [res|e] eqn:Hup; [|discriminate].
  destruct (res_ok res) eqn:Hok; cbn [negb].
  - destruct (res_json res) as [result|e]; [|discriminate].
    destruct (Worker.content result) as [c|e]; [|discriminate].
    intros [= <- <-]. exists (Spec.outbound env Worker.systemPrompt msg), res.
    split; [reflexivity|]. split; [exact Hup|]. right. now split.
  - destruct (res_text res) as [details|e] eqn:Ht; [|discriminate].
    intros [= <- <-]. exists (Spec.outbound env Worker.systemPrompt msg), res.
    split; [reflexivity|]. split; [exact Hup|].
    left. split; [exact Hok|]. split; [reflexivity|]. now exists details.
Qed.

(** X11: the status of a response tells what happened: 200 only after
    the one call was answered with a success status, 500 only after it
    was answered with another status and its text was read, 405 only
    when the method is not POST and nothing was called. *)
Theorem status_tells_the_cause p request env up r log :
  run (Relay.handler p request env) up = (Normal r, log) ->
  (status r = 200%Z ->
   exists call res,
     log = [call] /\ up call = Normal res /\ res_ok res = true)
  /\ (status r = 500%Z ->
      exists call res details,
        log = [call] /\ up call = Normal res /\ res_ok res = false
        /\ res_text res = Normal details)
  /\ (status r = 405%Z -> req_method request <> lit "POST" /\ log = []).
Proof.
  rewrite handler_run.
  destruct (Edge.checks_method p
            && negb (jsstring_eqb (req_method request) (lit "POST")))%bool
    eqn:Hc.
  - intros [= <- <-]. apply andb_true_iff in Hc as (_ & Hm).
    apply negb_true_iff, jsstring_eqb_neq in Hm.
    repeat split; try discriminate; assumption.
  - destruct (Worker.try_block request env up []) as [[r0|err] log0] eqn:Ht.
    + intros [= <- <-].
      destruct (try_block_normal _ _ _ Ht)
        as (call & res & -> & Hup & [(Hok & Hs & details & Hd)|(Hok & Hs)]);
        rewrite Hs; repeat split; try discriminate; intros _.
      * now exists call, res, details.
      * now exists call, res.
    + intros [= <- <-]. repeat split; discriminate.
Qed.

Lemma status_tells_the_cause_witness :
  exists call res details,
    [Spec.outbound Sample.env Worker.systemPrompt []] = [call]
    /\ Sample.answering Sample.rate_limited call = Normal res
    /\ res_ok res = false
    /\ res_text res = Normal details.
Proof.
  refine (proj1 (proj2 (@status_tells_the_cause Relay.WorkerFetch
            (Sample.post Sample.blank_name) Sample.env
            (Sample.answering Sample.rate_limited)
            (Spec.upstream_error (lit "rate limited"))
            [Spec.outbound Sample.env Worker.systemPrompt []] _)) eq_refl).
  rewrite handler_POST by reflexivity.
  rewrite try_block_unfold. reflexivity.
Defined.

(** X12: a failure on the way to or from the upstream is answered 400,
    not 500, with the text of the exception and after the one call:
    when the global [fetch] rejects, when [text()] rejects on a
    non-success answer, when [json()] rejects on a success answer, and
    when the success body is the JSON value null. *)
Theorem upstream_exceptions_are_answered_400
    p request env up parsed msg :
  req_method request = lit "POST" ->
  req_json request = Normal parsed ->
  Relay.userMessage p parsed = Normal msg ->
  let call := Spec.outbound env (Relay.systemPrompt p) msg in
  let refused (text : jsstring) :=
    (Normal {| status := 400;
               headers := [ (lit "Content-Type", lit "application/json") ];
               body := Spec.jsontext "{'error':'Invalid request','message':"
                       ++ QuoteJSONString text ++ Spec.jsontext "}" |},
     [call]) in
  (forall e, up call = Throw e ->
     run (Relay.handler p request env) up = refused (message e))
  /\ (forall res e,
        up call = Normal res -> res_ok res = false ->
        res_text res = Throw e ->
        run (Relay.handler p request env) up = refused (message e))
  /\ (forall res e,
        up call = Normal res -> res_ok res = true ->
        res_json res = Throw e ->
        run (Relay.handler p request env) up = refused (message e))
  /\ (forall res,
        up call = Normal res -> res_ok res = true ->
        res_json res = Normal VNull ->
        run (Relay.handler p request env) up
        = refused (lit "Cannot read properties of null (reading 'choices')")).
Proof.
  rewrite userMessage_eq, systemPrompt_eq. intros Hm Hj Hu call refused.
  subst call refused.
  rewrite handler_POST by exact Hm. rewrite try_block_unfold, Hj, Hu.
  cbv zeta. repeat split.
  - intros e ->. reflexivity.
  - intros res e -> -> ->. reflexivity.
  - intros res e -> -> ->. reflexivity.
  - intros res -> -> ->. reflexivity.
Qed.

Lemma upstream_exceptions_are_answered_400_witness :
  run (Relay.handler Relay.WorkerFetch (Sample.post Sample.blank_name)
         Sample.env) Edge.unreachable
  = (Normal (Spec.invalid_request (lit "Network connection lost.")),
     [Spec.outbound Sample.env Worker.systemPrompt []]).
Proof.
  exact (proj1 (@upstream_exceptions_are_answered_400 Relay.WorkerFetch
                  (Sample.post Sample.blank_name) Sample.env Edge.unreachable
                  Sample.blank_name [] eq_refl eq_refl eq_refl)
           {| name := lit "TypeError";
              message := lit "Network connection lost." |} eq_refl).
Defined.

(** X13: the response does not depend on the environment: two runs on
    the same request, with different secrets, end with the same
    response as soon as the upstream answers the two calls alike. *)
Theorem response_does_not_depend_on_env p request env env' up up' :
  (forall msg,
     up' (Spec.outbound env' (Relay.systemPrompt p) msg)
     = up (Spec.outbound env (Relay.systemPrompt p) msg)) ->
  fst (run (Relay.handler p request env') up')
  = fst (run (Relay.handler p request env) up).
Proof.
  rewrite systemPrompt_eq. intros H. rewrite !handler_run.
  destruct (_ && _)%bool; [reflexivity|].
  rewrite !try_block_unfold.
  destruct (req_json request) as [parsed|e]; [|reflexivity].
  destruct (Worker.userMessage parsed) as [msg|e]; [|reflexivity].
  cbv zeta. rewrite H.
  destruct (up _) as [res|e]; [|reflexivity].
  destruct (negb (res_ok res)).
  - destruct (res_text res); reflexivity.
  - destruct (res_json res) as [result|e]; [|reflexivity].
    destruct (Worker.content result); reflexivity.
Qed.

Lemma response_does_not_depend_on_env_witness :
  fst (run (Relay.handler Relay.WorkerFetch (Sample.post Sample.bourbon)
              Edge.no_key) (Sample.answering Sample.rate_limited))
  = fst (run (Relay.handler Relay.WorkerFetch (Sample.post Sample.bourbon)
                Sample.env) (Sample.answering Sample.rate_limited)).
Proof.
  apply (@response_does_not_depend_on_env Relay.WorkerFetch
           (Sample.post Sample.bourbon) Sample.env Edge.no_key
           (Sample.answering Sample.rate_limited)
           (Sample.answering Sample.rate_limited)).
  reflexivity.
Defined.

(** X14: [handlePost] and [onRequestPost] never look at the method:
    whatever it is, they end with a response of status 200, 400 or 500,
    never 405, and the response and the calls are those for the same
    request sent with any other method. *)
Theorem post_handlers_ignore_the_method context method up :
  let context' :=
    {| request := {| req_method := method;
                     req_json := req_json (request context) |};
       env := env context |} in
  (exists r log,
     run (Pages.onRequestPost context) up = (Normal r, log)
     /\ In (status r) [200; 400; 500]%Z)
  /\ run (Pages.onRequestPost context') up
     = run (Pages.onRequestPost context) up
  /\ run (Pages.handlePost context') up = run (Pages.handlePost context) up
  /\ run (Pages.handlePost context) up = run (Pages.onRequestPost context) up.
Proof.
  destruct context as [[m j] e]. cbn [request env req_json].
  repeat split.
  destruct (try_catch_total {| req_method := m; req_json := j |} e up [])
    as (r & log & Ht & _ & Hs).
  exists r, log. split; [exact Ht | exact Hs].
Qed.

End Upstream.

(** ** Bodies without control characters *)

Section Printable.
Import JS Host.

Lemma printable_app a b :
  Edge.printable (a ++ b) = (Edge.printable a && Edge.printable b)%bool.
Proof. apply forallb_app. Qed.

Lemma printable_split n s :
  Edge.printable s = true ->
  Edge.printable (firstn n s) = true /\ Edge.printable (skipn n s) = true.
Proof.
  intros H. rewrite <- (firstn_skipn n s), printable_app in H.
  now apply andb_true_iff in H.
Qed.

Lemma hex_digit_printable d : (32 <=? hex_digit d)%N = true.
Proof.
  unfold hex_digit. destruct (d <? 10)%N; apply N.leb_le; lia.
Qed.

Lemma quote_unit_printable c : Edge.printable (quote_unit c) = true.
Proof.
  unfold quote_unit.
  repeat (match goal with
          | |- context [if N.eqb c ?k then _ else _] =>
              destruct (N.eqb c k); [reflexivity|]
          end).
  destruct (N.ltb c 32) eqn:E; cbn [orb].
  - cbn. now rewrite !hex_digit_printable.
  - destruct (_ || _)%bool.
    + cbn. now rewrite !hex_digit_printable.
    + cbn. apply N.ltb_ge in E. apply N.leb_le in E. now rewrite E.
Qed.

Lemma quote_units_pair c d rest :
  quote_units (c :: d :: rest)
  = if (isLeadingSurrogate c && isTrailingSurrogate d)%bool
    then c :: d :: quote_units rest
    else quote_unit c ++ quote_units (d :: rest).
Proof. reflexivity. Qed.

Lemma quote_units_printable s : Edge.printable (quote_units s) = true.
Proof.
  assert (G : forall n s, (List.length s <= n)%nat ->
                Edge.printable (quote_units s) = true);
    [|now apply (G (List.length s))].
  clear s. induction n as [|n IH]; intros [|c [|d rest]] Hl;
    try reflexivity; simpl in Hl; try lia.
  - apply quote_unit_printable.
  - rewrite quote_units_pair.
    destruct (isLeadingSurrogate c && isTrailingSurrogate d)%bool eqn:E.
    + apply andb_true_iff in E as (Hc & Hd).
      unfold isLeadingSurrogate in Hc. unfold isTrailingSurrogate in Hd.
      apply andb_true_iff in Hc as (Hc & _).
      apply andb_true_iff in Hd as (Hd & _).
      apply N.leb_le in Hc, Hd.
      cbn [Edge.printable forallb].
      replace (32 <=? c)%N with true by (symmetry; apply N.leb_le; lia).
      replace (32 <=? d)%N with true by (symmetry; apply N.leb_le; lia).
      apply IH. lia.
    + rewrite printable_app, quote_unit_printable. apply IH. simpl. lia.
Qed.

Lemma QuoteJSONString_printable s :
  Edge.printable (QuoteJSONString s) = true.
Proof.
  unfold QuoteJSONString. rewrite !printable_app, quote_units_printable.
  reflexivity.
Qed.

Lemma uint_units_printable u : Edge.printable (uint_units u) = true.
Proof. induction u; simpl; auto. Qed.

Lemma zeros_printable n : Edge.printable (zeros n) = true.
Proof.
  unfold zeros. induction (Z.to_nat n) as [|k IH]; simpl; auto.
Qed.

Lemma format_decimal_printable s q :
  Edge.printable (format_decimal s q) = true.
Proof.
  unfold format_decimal, decimal_digits.
  pose proof (uint_units_printable (Pos.to_uint s)) as Hd.
  set (ds := uint_units (Pos.to_uint s)) in *.
  destruct (_ && _)%bool.
  - destruct (_ <=? _)%Z; [|destruct (_ <? _)%Z].
    + now rewrite printable_app, Hd, zeros_printable.
    + destruct (printable_split (Z.to_nat (q + Z.of_nat (List.length ds))) _ Hd)
        as (Hf & Hk).
      now rewrite !printable_app, Hf, Hk.
    + now rewrite !printable_app, zeros_printable, Hd.
  - rewrite !printable_app, uint_units_printable.
    match goal with
    | |- (Edge.printable ?m && _)%bool = true =>
        assert (Hm : Edge.printable m = true)
          by (destruct ds as [|d [|d' rest]]; exact Hd);
        rewrite Hm
    end.
    now destruct (_ <? _)%Z.
Qed.

Lemma Number_toString_printable n :
  Edge.printable (Number_toString n) = true.
Proof.
  destruct n as [s|s| |s m e]; try reflexivity.
  - destruct s; reflexivity.
  - assert (H : Edge.printable (toString_positive m e) = true).
    { unfold toString_positive.
      destruct (rounding_interval m e) as [[[[lo V] hi] closed] g].
      destruct (shortest _ _ _) as [d q]. apply format_decimal_printable. }
    destruct s; [|exact H].
    cbn [Number_toString]. now rewrite printable_app, H.
Qed.

Lemma join_printable elts sep :
  Forall (fun s => Edge.printable s = true) elts ->
  Edge.printable sep = true ->
  Edge.printable (join elts sep) = true.
Proof.
  intros H Hs. induction H as [|x l Hx Hl IH]; [reflexivity|].
  cbn [join]. destruct l; [exact Hx|].
  now rewrite !printable_app, Hx, Hs, IH.
Qed.

(** What [JSON.stringify] writes holds no control character. *)
Lemma JSON_stringify_printable v :
  Edge.printable (JSON_stringify v) = true.
Proof.
  induction v as [|b|n|s|elts IH|props IH] using Edge.jsvalue_deep_ind.
  - reflexivity.
  - destruct b; reflexivity.
  - cbn [JSON_stringify].
    destruct (Number_isFinite n); [apply Number_toString_printable|].
    reflexivity.
  - apply QuoteJSONString_printable.
  - cbn [JSON_stringify]. rewrite !printable_app.
    rewrite join_printable; [reflexivity| |reflexivity].
    apply Forall_map. exact IH.
  - cbn [JSON_stringify]. rewrite !printable_app.
    rewrite join_printable; [reflexivity| |reflexivity].
    apply Forall_map. apply Forall_forall. intros [k x] Hin.
    rewrite Forall_forall in IH. specialize (IH _ Hin). cbn [snd] in IH.
    now rewrite !printable_app, QuoteJSONString_printable, IH.
Qed.

(** X15: no body that an entry point writes holds a control character,
    whatever the field values, the exception text, the upstream text or
    the upstream content are: neither the body of the response nor the
    body of the outbound call has a code unit below U+0020 (a line
    break of a value arrives escaped). *)
Theorem bodies_hold_no_control_character p request env up r log :
  run (Relay.handler p request env) up = (Normal r, log) ->
  Edge.printable (body r) = true
  /\ forall call, In call log -> Edge.printable (call_body call) = true.
Proof.
  intros H. split.
  - revert H. rewrite handler_run.
    destruct (_ && _)%bool; [now intros [= <- _]|].
    rewrite try_block_unfold.
    assert (Hi : forall text,
               Edge.printable (body (Spec.invalid_request text)) = true).
    { intros text. cbn [body Spec.invalid_request].
      now rewrite !printable_app, QuoteJSONString_printable. }
    destruct (req_json request) as [parsed|e]; [|now intros [= <- _]].
    destruct (Worker.userMessage parsed) as [msg|e]; [|now intros [= <- _]].
    cbv zeta. destruct (up _) as [res|e]; [|now intros [= <- _]].
    destruct (negb (res_ok res)).
    + destruct (res_text res) as [details|e]; [|now intros [= <- _]].
      intros [= <- _]. cbn [body Spec.upstream_error].
      now rewrite !printable_app, QuoteJSONString_printable.
    + destruct (res_json res) as [result|e]; [|now intros [= <- _]].
      destruct (Worker.content result) as [c|e]; [|now intros [= <- _]].
      intros [= <- _].
      apply (JSON_stringify_printable (VObject (member (lit "html") c))).
  - intros call Hin.
    destruct (handler_log p request env up) as [E|(parsed & msg & _ & _ & E)];
      rewrite H in E; cbn [snd] in E; subst log; [destruct Hin|].
    destruct Hin as [<-|[]]. apply JSON_stringify_printable.
Qed.

Lemma bodies_hold_no_control_character_witness :
  Edge.printable (body (Spec.upstream_error (lit "rate" ++ LF ++ lit "limited")))
  = true.
Proof.
  refine (proj1 (@bodies_hold_no_control_character Relay.WorkerFetch
            (Sample.post Sample.blank_name) Sample.env
            (Sample.answering
               {| res_ok := false;
                  res_text := Normal (lit "rate" ++ LF ++ lit "limited");
                  res_json := Normal VNull |})
            (Spec.upstream_error (lit "rate" ++ LF ++ lit "limited"))
            [Spec.outbound Sample.env Worker.systemPrompt []] _)).
  rewrite handler_POST by reflexivity.
  rewrite try_block_unfold. reflexivity.
Defined.

End Printable.
